(** * TokenDetailsModal: analytics display logic and synthetic price series

    A shallow embedding of [src/app/components/TokenDetailsModal.tsx].

    JavaScript numbers are IEEE-754 binary64 values; they are embedded as
    Rocq's primitive [float], whose operations are the same correctly
    rounded binary64 operations, so that every arithmetic expression of the
    component is transcribed literally and evaluates here to the very value
    a JavaScript engine produces (including [Infinity], [NaN] and signed
    zeros).  Universal statements about floats are derived from the
    specification of the primitives in [FloatAxioms] ([Prim2SF] and the
    [SF64*] reference operations).

    Millisecond timestamps ([Date.now()] and the whole-hour offsets
    subtracted from it) are integers far below 2^53, where binary64
    arithmetic is exact; they are embedded as [Z].

    [undefined] and [null] are embedded as [None].  *)

From Stdlib Require Import Floats ZArith List String Bool Lia Uint63.
Import ListNotations.

Set Warnings "-inexact-float".

Local Open Scope float_scope.

(* ================================================================== *)
(** * The fragment of ECMAScript the component relies on *)
(* ================================================================== *)

Module JS.

(** [Number.isNaN]. *)
Definition isNaN (x : float) : bool := PrimFloat.is_nan x.

Definition is_pos_zero (x : float) : bool :=
  match classify x with PZero => true | _ => false end.

Definition is_neg_zero (x : float) : bool :=
  match classify x with NZero => true | _ => false end.

(** [Math.max(...args)], ECMA-262 21.3.2.24: starting from -Infinity,
    any NaN argument makes the result NaN, +0 is considered larger than
    -0, and [number > highest] replaces the running maximum. *)
Fixpoint max_loop (highest : float) (coerced : list float) : float :=
  match coerced with
  | [] => highest
  | number :: rest =>
      if isNaN number then nan
      else
        let highest :=
          if is_pos_zero number && is_neg_zero highest then 0 else highest in
        let highest := if highest <? number then number else highest in
        max_loop highest rest
  end.

Definition Math_max (args : list float) : float :=
  max_loop neg_infinity args.

(** The integer [z], for [0 <= z < 2^63], as a number. *)
Definition of_Z (z : Z) : float := of_uint63 (Uint63.of_Z z).

(** [Math.floor], ECMA-262 21.3.2.16: NaN, the infinities and the zeros
    are returned as they are; so is a value whose binary64 exponent is
    non-negative (it is an integer already); otherwise the mantissa is
    shifted right, rounding towards -Infinity. *)
Definition Math_floor (x : float) : float :=
  match Prim2SF x with
  | S754_finite s m e =>
      if (0 <=? e)%Z then x
      else
        let d := (2 ^ (- e))%Z in
        let q := (Zpos m / d)%Z in
        if s
        then - of_Z (if (Zpos m mod d =? 0)%Z then q else q + 1)%Z
        else of_Z q
  | _ => x
  end.

(** The loop counter [i] of a counted [for] loop, as a number. *)
Definition of_nat (n : nat) : float := of_Z (Z.of_nat n).

(** [ToBoolean] on a value of type [string | undefined | null]: only a
    non-empty string is truthy. *)
Definition truthy (v : option string) : bool :=
  match v with
  | Some s => negb (String.eqb s EmptyString)
  | None => false
  end.

(** [a || b] on such values. *)
Definition or (a b : option string) : option string :=
  if truthy a then a else b.

(** [a || d] where the last operand [d] is a non-empty string literal. *)
Definition or_default (a : option string) (d : string) : string :=
  match a with
  | Some s => if String.eqb s EmptyString then d else s
  | None => d
  end.

(** [ToBoolean] on a number: [+0], [-0] and [NaN] are falsy. *)
Definition truthy_number (x : float) : bool :=
  negb (isNaN x || (x =? 0)).

(** [Math.min(...args)], ECMA-262 21.3.2.25: starting from +Infinity, any
    NaN argument makes the result NaN, -0 is considered smaller than +0,
    and [number < lowest] replaces the running minimum. *)
Fixpoint min_loop (lowest : float) (coerced : list float) : float :=
  match coerced with
  | [] => lowest
  | number :: rest =>
      if isNaN number then nan
      else
        let lowest :=
          if is_neg_zero number && is_pos_zero lowest then (- 0) else lowest in
        let lowest := if number <? lowest then number else lowest in
        min_loop lowest rest
  end.

Definition Math_min (args : list float) : float :=
  min_loop infinity args.

(** The outcome of awaiting a promise. *)
Inductive Settled (A : Type) : Type :=
| Fulfilled (value : A)
| Rejected (reason : string).
Arguments Fulfilled {A} value.
Arguments Rejected {A} reason.

End JS.

(* ================================================================== *)
(** * Data model ([../types/tokenAnalytics], [../types/solana]) *)
(* ================================================================== *)

(** The type declarations are imported by the component from modules that
    are not part of the sources at hand; the records below carry the fields
    the component reads, with the types it uses them at. *)

Module TokenDetails.
Record t : Type := mk {
  mint : string;
  symbol : string;
  name : string;
  logoUri : option string;
  price : float;
  priceChange24h : float;
  marketCap : float;
  status : string
}.
End TokenDetails.

Module TopHolder.
Record t : Type := mk { address : string; percentage : float }.
End TopHolder.

Module SecurityAnalysis.
Record t : Type := mk {
  riskScore : float;
  riskLevel : string;
  description : string
}.
End SecurityAnalysis.

Module RealTradeData.
Record t : Type := mk {
  liquidity : float;
  volume24h : float;
  buys24h : float;
  sells24h : float
}.
End RealTradeData.

Module TokenAnalytics.
Record t : Type := mk {
  details : TokenDetails.t;
  security : SecurityAnalysis.t;
  topHolders : list TopHolder.t;
  tradeData : RealTradeData.t;
  totalHolders : float
}.
End TokenAnalytics.

Module TokenHolding.
Record t : Type := mk {
  mint : string;
  symbol : string;
  name : string;
  logoUri : option string
}.
End TokenHolding.

Module PricePoint.
Record t : Type := mk {
  timestamp : Z;
  price : float;
  time : string
}.
End PricePoint.

(** [type TimeFrame = "1H" | "1D" | "1W" | "1M" | "YTD" | "ALL"]. *)
Inductive TimeFrame : Type :=
| TF_1H | TF_1D | TF_1W | TF_1M | TF_YTD | TF_ALL.

Definition SOL_MINT : string :=
  "So11111111111111111111111111111111111111112"%string.

Definition SOL_LOGO_URI : string :=
  "https://raw.githubusercontent.com/solana-labs/token-list/main/assets/mainnet/So11111111111111111111111111111111111111112/logo.png"%string.

(** The props of the component that its logic reads. *)
Record Props : Type := mkProps {
  isOpen : bool;
  tokenMint : option string;
  tokenSymbol : option string;
  existingTokenData : option TokenHolding.t
}.

(** The [useState] cells of the component. *)
Record State : Type := mkState {
  isAnimating : bool;
  analytics : option TokenAnalytics.t;
  loading : bool;
  error : option string;
  selectedTimeFrame : TimeFrame
}.

Definition initialState : State :=
  {| isAnimating := false; analytics := None; loading := false;
     error := None; selectedTimeFrame := TF_1D |}.

Definition setAnalytics (v : option TokenAnalytics.t) (st : State) : State :=
  {| isAnimating := isAnimating st; analytics := v; loading := loading st;
     error := error st; selectedTimeFrame := selectedTimeFrame st |}.

Definition setLoading (v : bool) (st : State) : State :=
  {| isAnimating := isAnimating st; analytics := analytics st; loading := v;
     error := error st; selectedTimeFrame := selectedTimeFrame st |}.

Definition setError (v : option string) (st : State) : State :=
  {| isAnimating := isAnimating st; analytics := analytics st;
     loading := loading st; error := v;
     selectedTimeFrame := selectedTimeFrame st |}.

Definition setSelectedTimeFrame (v : TimeFrame) (st : State) : State :=
  {| isAnimating := isAnimating st; analytics := analytics st;
     loading := loading st; error := error st; selectedTimeFrame := v |}.

(* ================================================================== *)
(** * [fetchTokenAnalytics] (lines 67-82) *)
(* ================================================================== *)

(** [getTokenAnalytics] lives in [../lib/tokenAnalytics]; what the component
    sees of one call is the promise's outcome for the arguments passed. *)
Definition Provider : Type :=
  string -> option TokenHolding.t -> JS.Settled TokenAnalytics.t.

(** Up to the [await]: [setLoading(true); setError(null)]. *)
Definition fetch_begin (st : State) : State :=
  setError None (setLoading true st).

(** After the [await]: the [try] branch stores the record, the [catch]
    branch stores the fixed message; [finally] clears the loading flag. *)
Definition fetch_settle (outcome : JS.Settled TokenAnalytics.t) (st : State)
  : State :=
  setLoading false
    match outcome with
    | JS.Fulfilled data => setAnalytics (Some data) st
    | JS.Rejected _ => setError (Some "Failed to load token data"%string) st
    end.

Definition fetchTokenAnalytics (props : Props) (getTokenAnalytics : Provider)
    (st : State) : State :=
  if negb (JS.truthy (tokenMint props)) then st
  else
    match tokenMint props with
    | None => st
    | Some mint =>
        fetch_settle (getTokenAnalytics mint (existingTokenData props))
                     (fetch_begin st)
    end.

(** The branch of the scrollable content that is rendered
    (lines 227-549): [loading ? spinner : error ? panel : analytics ? ... ]. *)
Inductive Content : Type :=
| Spinner
| ErrorPanel (message : string)
| Report (a : TokenAnalytics.t)
| Nothing.

Definition content (st : State) : Content :=
  if loading st then Spinner
  else if JS.truthy (error st) then
    match error st with Some message => ErrorPanel message | None => Nothing end
  else
    match analytics st with Some a => Report a | None => Nothing end.

(** The error panel's button: [<button onClick={fetchTokenAnalytics}>Retry]. *)
Definition onRetryClick := fetchTokenAnalytics.

(** ** Overlapping calls

    [fetchTokenAnalytics] is an [async] function: a call runs up to its
    [await] and is resumed when the promise settles.  Nothing cancels a
    pending call or tells the calls apart (there is no request id), and the
    effect of line 54 and the Retry button can start a call while another
    is pending, so the two halves of different calls interleave with each
    other and with the other state updates of the component. *)

Definition setIsAnimating (v : bool) (st : State) : State :=
  {| isAnimating := v; analytics := analytics st; loading := loading st;
     error := error st; selectedTimeFrame := selectedTimeFrame st |}.

Inductive Event : Type :=
| Started
| Settled (outcome : JS.Settled TokenAnalytics.t)
| TimeFrameSelected (timeFrame : TimeFrame)
| AnimationSet (value : bool).

(** One state update: a call with a truthy mint reaching its [await], a
    pending call resuming after it, a click in the time-frame selector
    (line 309), [setIsAnimating] (lines 56, 62, 91). *)
Definition step (st : State) (ev : Event) : State :=
  match ev with
  | Started => fetch_begin st
  | Settled outcome => fetch_settle outcome st
  | TimeFrameSelected timeFrame => setSelectedTimeFrame timeFrame st
  | AnimationSet value => setIsAnimating value st
  end.

Definition run (events : list Event) (st : State) : State :=
  fold_left step events st.

(** The number of calls still pending after [events], when [n] were
    pending before; [None] when a call resumes that was never started. *)
Fixpoint pending (n : nat) (events : list Event) : option nat :=
  match events with
  | [] => Some n
  | Started :: rest => pending (S n) rest
  | Settled _ :: rest =>
      match n with
      | O => None
      | S k => pending k rest
      end
  | _ :: rest => pending n rest
  end.

(** The events that write the [error] cell: a start clears it, a rejection
    sets it. *)
Definition writes_error (ev : Event) : bool :=
  match ev with
  | Started | Settled (JS.Rejected _) => true
  | _ => false
  end.

(* ================================================================== *)
(** * [chartData] (lines 102-135) *)
(* ================================================================== *)

Definition points : nat := 24.

(** The named sub-expressions of the loop body. *)

Definition startPrice (currentPrice priceChange24h : float) : float :=
  currentPrice / (1 + priceChange24h / 100).

Definition progress (i : nat) : float :=
  JS.of_nat i / (JS.of_nat points - 1).

Definition volatility (random : float) : float :=
  (random - 0.5) * 0.02.

Definition trendPrice (startPrice currentPrice progress : float) : float :=
  startPrice + (currentPrice - startPrice) * progress.

Definition finalPrice (trendPrice volatility : float) : float :=
  trendPrice * (1 + volatility).

Definition floorPrice : float := 0.0001.

(** [now - (points - i) * 60 * 60 * 1000]. *)
Definition hoursBefore (now : Z) (i : nat) : Z :=
  (now - (Z.of_nat points - Z.of_nat i) * 60 * 60 * 1000)%Z.

Section ChartData.

(** [new Date(t).toLocaleTimeString("en-US", {hour, minute})] depends on
    the time zone of the host. *)
Variable toLocaleTimeString : Z -> string.

(** The object pushed by iteration [i], written with the named
    sub-expressions. *)
Definition pointAt (currentPrice priceChange24h : float)
    (Date_now : nat -> Z) (Math_random : nat -> float) (i : nat)
  : PricePoint.t :=
  {| PricePoint.timestamp := hoursBefore (Date_now (2 * i)%nat) i;
     PricePoint.price :=
       JS.Math_max
         [ finalPrice
             (trendPrice (startPrice currentPrice priceChange24h)
                         currentPrice (progress i))
             (volatility (Math_random i));
           floorPrice ];
     PricePoint.time :=
       toLocaleTimeString (hoursBefore (Date_now (2 * i + 1)%nat) i) |}.

(** Iteration [i] calls [Date.now()] twice (readings [2i] and [2i+1] of
    the clock since the memo body started) and [Math.random()] once
    (draw [i]). *)
Definition chartData (st : State) (Date_now : nat -> Z)
    (Math_random : nat -> float) : list PricePoint.t :=
  match analytics st with
  | None => []
  | Some analytics =>
      let currentPrice :=
        TokenDetails.price (TokenAnalytics.details analytics) in
      let priceChange24h :=
        TokenDetails.priceChange24h (TokenAnalytics.details analytics) in
      let startPrice := currentPrice / (1 + priceChange24h / 100) in
      fold_left
        (fun data i =>
           let progress := JS.of_nat i / (JS.of_nat points - 1) in
           let volatility := (Math_random i - 0.5) * 0.02 in
           let trendPrice :=
             startPrice + (currentPrice - startPrice) * progress in
           let finalPrice := trendPrice * (1 + volatility) in
           data ++
           [ {| PricePoint.timestamp :=
                  (Date_now (2 * i)%nat
                   - (Z.of_nat points - Z.of_nat i) * 60 * 60 * 1000)%Z;
                PricePoint.price := JS.Math_max [finalPrice; 0.0001];
                PricePoint.time :=
                  toLocaleTimeString
                    (Date_now (2 * i + 1)%nat
                     - (Z.of_nat points - Z.of_nat i) * 60 * 60 * 1000)%Z
             |} ])
        (seq 0 points) []
  end.

End ChartData.

(* ================================================================== *)
(** * Header and info fields *)
(* ================================================================== *)

(** [existingTokenData?.mint]. *)
Definition existing_mint (props : Props) : option string :=
  option_map TokenHolding.mint (existingTokenData props).

(** [existingTokenData?.logoUri]. *)
Definition existing_logoUri (props : Props) : option string :=
  match existingTokenData props with
  | Some existing => TokenHolding.logoUri existing
  | None => None
  end.

(** [analytics?.details.logoUri]. *)
Definition analytics_logoUri (st : State) : option string :=
  match analytics st with
  | Some a => TokenDetails.logoUri (TokenAnalytics.details a)
  | None => None
  end.

(** [x === "So111...112"] for [x : string | undefined]. *)
Definition is_SOL_MINT (x : option string) : bool :=
  match x with
  | Some m => String.eqb m SOL_MINT
  | None => false
  end.

(** [headerLogo] (lines 145-152). *)
Definition headerLogo (st : State) (props : Props) : option string :=
  if is_SOL_MINT (existing_mint props) then Some SOL_LOGO_URI
  else JS.or (JS.or (analytics_logoUri st) (existing_logoUri props)) None.

Section Fields.

(** [formatCurrency] of [../utils/formatting] and
    [Number.prototype.toLocaleString]. *)
Variable formatCurrency : float -> string.
Variable toLocaleString : float -> string.

(** Lines 416-421. *)
Definition liquidityField (a : TokenAnalytics.t) : string :=
  if 0 <? RealTradeData.liquidity (TokenAnalytics.tradeData a)
  then formatCurrency (RealTradeData.liquidity (TokenAnalytics.tradeData a))
  else "Failed to load"%string.

(** The number shown as "Unique Wallets" (lines 524-530). *)
Definition uniqueWallets (a : TokenAnalytics.t) : float :=
  JS.Math_max
    [ JS.Math_floor
        ((RealTradeData.buys24h (TokenAnalytics.tradeData a)
          + RealTradeData.sells24h (TokenAnalytics.tradeData a)) * 0.3);
      50 ].

(** Lines 517-534. *)
Definition uniqueWalletsField (a : TokenAnalytics.t) : string :=
  if (0 <? RealTradeData.buys24h (TokenAnalytics.tradeData a))
     || (0 <? RealTradeData.sells24h (TokenAnalytics.tradeData a))
  then toLocaleString (uniqueWallets a)
  else "Failed to load"%string.

End Fields.

(* ================================================================== *)
(** * Header text (lines 154-161) *)
(* ================================================================== *)

(** [analytics?.details.name], [analytics?.details.symbol]. *)
Definition analytics_name (st : State) : option string :=
  option_map (fun a => TokenDetails.name (TokenAnalytics.details a))
             (analytics st).

Definition analytics_symbol (st : State) : option string :=
  option_map (fun a => TokenDetails.symbol (TokenAnalytics.details a))
             (analytics st).

(** [existingTokenData?.name], [existingTokenData?.symbol]. *)
Definition existing_name (props : Props) : option string :=
  option_map TokenHolding.name (existingTokenData props).

Definition existing_symbol (props : Props) : option string :=
  option_map TokenHolding.symbol (existingTokenData props).

Definition headerName (st : State) (props : Props) : string :=
  JS.or_default (JS.or (analytics_name st) (existing_name props))
                "Asset"%string.

Section HeaderSymbol.

(** [String.prototype.toUpperCase] follows the Unicode case mapping of the
    host. *)
Variable toUpperCase : string -> string.

Definition headerSymbol (st : State) (props : Props) : string :=
  toUpperCase
    (JS.or_default
       (JS.or (JS.or (analytics_symbol st) (existing_symbol props))
              (tokenSymbol props))
       "ASSET"%string).

End HeaderSymbol.

(* ================================================================== *)
(** * Top holders (lines 374-407) *)
(* ================================================================== *)

(** One rendered row: the React key, the shortened address, the width of
    the bar in percent and the percentage label. *)
Module HolderRow.
Record t : Type := mk {
  key : string;
  address : string;
  width : float;
  label : string
}.
End HolderRow.

Section TopHolders.

(** [shortenAddress] of [../utils/formatting] and
    [Number.prototype.toFixed] with two digits. *)
Variable shortenAddress : string -> string.
Variable toFixed2 : float -> string.

Definition holderRow (holder : TopHolder.t) : HolderRow.t :=
  {| HolderRow.key := TopHolder.address holder;
     HolderRow.address := shortenAddress (TopHolder.address holder);
     HolderRow.width := JS.Math_min [TopHolder.percentage holder * 4; 100];
     HolderRow.label := toFixed2 (TopHolder.percentage holder) |}.

(** [None] stands for the "N/A" placeholder. *)
Definition topHolderRows (a : TokenAnalytics.t) : option (list HolderRow.t) :=
  if (0 <? List.length (TokenAnalytics.topHolders a))%nat
  then Some (map holderRow (firstn 5 (TokenAnalytics.topHolders a)))
  else None.

End TopHolders.

(* ================================================================== *)
(** * The other info and performance fields (lines 436-515) *)
(* ================================================================== *)

Section MoreFields.

(** [formatCurrency], [formatLargeNumber] of [../utils/formatting] and
    [Number.prototype.toLocaleString]. *)
Variable formatCurrency : float -> string.
Variable formatLargeNumber : float -> string.
Variable toLocaleString : float -> string.

(** Lines 436-441.  The market cap is a number here: the falsy values
    of the test are [+0], [-0] and NaN. *)
Definition marketCapField (a : TokenAnalytics.t) : string :=
  if JS.truthy_number (TokenDetails.marketCap (TokenAnalytics.details a))
  then formatCurrency (TokenDetails.marketCap (TokenAnalytics.details a))
  else "Failed to load"%string.

(** Lines 447-455. *)
Definition circulatingSupplyField (a : TokenAnalytics.t) : string :=
  if JS.truthy_number (TokenDetails.marketCap (TokenAnalytics.details a))
     && (0 <? TokenDetails.price (TokenAnalytics.details a))
  then formatLargeNumber
         (TokenDetails.marketCap (TokenAnalytics.details a)
          / TokenDetails.price (TokenAnalytics.details a))
  else "Failed to load"%string.

(** Lines 461-465. *)
Definition totalHoldersField (a : TokenAnalytics.t) : string :=
  if 0 <? TokenAnalytics.totalHolders a
  then toLocaleString (TokenAnalytics.totalHolders a)
  else "N/A"%string.

(** Lines 479-483. *)
Definition volumeField (a : TokenAnalytics.t) : string :=
  if 0 <? RealTradeData.volume24h (TokenAnalytics.tradeData a)
  then formatCurrency (RealTradeData.volume24h (TokenAnalytics.tradeData a))
  else "Failed to load"%string.

(** Lines 489-497. *)
Definition totalTradesField (a : TokenAnalytics.t) : string :=
  if (0 <? RealTradeData.buys24h (TokenAnalytics.tradeData a))
     || (0 <? RealTradeData.sells24h (TokenAnalytics.tradeData a))
  then toLocaleString
         (RealTradeData.buys24h (TokenAnalytics.tradeData a)
          + RealTradeData.sells24h (TokenAnalytics.tradeData a))
  else "Failed to load"%string.

(** Lines 501-505. *)
Definition buysField (a : TokenAnalytics.t) : string :=
  if 0 <? RealTradeData.buys24h (TokenAnalytics.tradeData a)
  then toLocaleString (RealTradeData.buys24h (TokenAnalytics.tradeData a))
  else "Failed to load"%string.

(** Lines 511-515. *)
Definition sellsField (a : TokenAnalytics.t) : string :=
  if 0 <? RealTradeData.sells24h (TokenAnalytics.tradeData a)
  then toLocaleString (RealTradeData.sells24h (TokenAnalytics.tradeData a))
  else "Failed to load"%string.

End MoreFields.

(* ================================================================== *)
(** * Concrete records used to exercise the definitions *)
(* ================================================================== *)

Module Sample.

Definition analytics_of (mint : string) (logoUri : option string)
    (price priceChange24h liquidity buys24h sells24h : float)
  : TokenAnalytics.t :=
  {| TokenAnalytics.details :=
       {| TokenDetails.mint := mint;
          TokenDetails.symbol := "TKN"%string;
          TokenDetails.name := "Token"%string;
          TokenDetails.logoUri := logoUri;
          TokenDetails.price := price;
          TokenDetails.priceChange24h := priceChange24h;
          TokenDetails.marketCap := 0;
          TokenDetails.status := "Active"%string |};
     TokenAnalytics.security :=
       {| SecurityAnalysis.riskScore := 10;
          SecurityAnalysis.riskLevel := "Low Risk"%string;
          SecurityAnalysis.description := ""%string |};
     TokenAnalytics.topHolders := [];
     TokenAnalytics.tradeData :=
       {| RealTradeData.liquidity := liquidity;
          RealTradeData.volume24h := 0;
          RealTradeData.buys24h := buys24h;
          RealTradeData.sells24h := sells24h |};
     TokenAnalytics.totalHolders := 0 |}.

Definition USDC_MINT : string :=
  "EPjFWdd5AufqSSqeM2qN1xzybapC8G4wEGGkZwyTDt1v"%string.

(** A record whose only data of interest are price and 24h change. *)
Definition priced (price priceChange24h : float) : TokenAnalytics.t :=
  analytics_of USDC_MINT None price priceChange24h 0 0 0.

(** A record whose only data of interest are the trade aggregates. *)
Definition traded (liquidity buys24h sells24h : float) : TokenAnalytics.t :=
  analytics_of USDC_MINT None 1 0 liquidity buys24h sells24h.

Definition showing (a : TokenAnalytics.t) : State :=
  setAnalytics (Some a) initialState.

Definition holding (mint : string) (logoUri : option string)
  : TokenHolding.t :=
  {| TokenHolding.mint := mint;
     TokenHolding.symbol := "TKN"%string;
     TokenHolding.name := "Token"%string;
     TokenHolding.logoUri := logoUri |}.

Definition props_of (mint : string) (existing : option TokenHolding.t)
  : Props :=
  {| isOpen := true; tokenMint := Some mint; tokenSymbol := None;
     existingTokenData := existing |}.

(** A host whose clock does not advance during one generation, and
    formatting helpers that print nothing. *)
Definition frozen_clock (now : Z) : nat -> Z := fun _ => now.
Definition no_label : Z -> string := fun _ => EmptyString.
Definition no_format : float -> string := fun _ => EmptyString.

(** [Math.random()] returning 0.5 at every call: zero perturbation. *)
Definition no_noise : nat -> float := fun _ => 0.5.

Definition failing : Provider := fun _ _ => JS.Rejected "timeout"%string.
Definition serving (a : TokenAnalytics.t) : Provider :=
  fun _ _ => JS.Fulfilled a.

End Sample.

(* ================================================================== *)
(** * Shapes of binary64 values *)
(* ================================================================== *)

Module Shape.

(** [0 <= x]: a zero, [+Infinity] or a positive finite number. *)
Definition nonneg (x : spec_float) : Prop :=
  match x with
  | S754_zero _ | S754_infinity false | S754_finite false _ _ => True
  | _ => False
  end.

(** [+0] or a positive finite number. *)
Definition fraction (x : spec_float) : Prop :=
  match x with
  | S754_zero false | S754_finite false _ _ => True
  | _ => False
  end.

End Shape.

Module Size.

(** [x] is a zero or a finite number below [2^k] in absolute value. *)
Definition below (k : Z) (x : spec_float) : Prop :=
  match x with
  | S754_zero _ => True
  | S754_finite _ m e => (Zpos (digits2_pos m) + e <= k)%Z
  | _ => False
  end.

End Size.

(* ================================================================== *)
(** * Facts about binary64 arithmetic *)
(* ================================================================== *)

Module FloatFacts.

(** ** Comparisons *)

Lemma compare_cont_Eq_opp (p q : positive) :
  Pos.compare_cont Eq q p = CompOpp (Pos.compare_cont Eq p q).
Proof. now rewrite (Pos.compare_cont_antisym p q Eq). Qed.

Lemma SFcompare_antisym (x y : spec_float) :
  SFcompare y x = option_map CompOpp (SFcompare x y).
Proof.
  destruct x as [sx|sx| |sx mx ex], y as [sy|sy| |sy my ey];
    try destruct sx; try destruct sy; cbn; try reflexivity;
    rewrite (Z.compare_antisym ey ex);
    destruct (ey ?= ex)%Z; cbn; try reflexivity;
    now rewrite (compare_cont_Eq_opp mx my).
Qed.

Lemma SFcompare_refl (x : spec_float) :
  x <> S754_nan -> SFcompare x x = Some Eq.
Proof.
  destruct x as [s|s| |s m e]; try destruct s; cbn; try congruence;
    intros _; rewrite Z.compare_refl, Pos.compare_cont_refl; reflexivity.
Qed.

Lemma SFcompare_None (x y : spec_float) :
  SFcompare x y = None <-> x = S754_nan \/ y = S754_nan.
Proof.
  destruct x as [sx|sx| |sx mx ex], y as [sy|sy| |sy my ey]; cbn;
    split; intros H; try discriminate; try reflexivity; auto;
    destruct H; discriminate.
Qed.

Lemma is_nan_spec (x : float) :
  is_nan x = true <-> Prim2SF x = S754_nan.
Proof.
  unfold is_nan. rewrite FloatAxioms.eqb_spec. unfold SFeqb. split.
  - destruct (Prim2SF x) eqn:E; try reflexivity;
      rewrite SFcompare_refl by congruence; discriminate.
  - intros ->. reflexivity.
Qed.

Lemma is_nan_false (x : float) :
  is_nan x = false <-> Prim2SF x <> S754_nan.
Proof.
  rewrite <- is_nan_spec. destruct (is_nan x); split; congruence.
Qed.

Lemma ltb_false_leb (x y : float) :
  is_nan x = false -> is_nan y = false ->
  (x <? y) = false -> (y <=? x) = true.
Proof.
  rewrite !is_nan_false, FloatAxioms.ltb_spec, FloatAxioms.leb_spec.
  unfold SFltb, SFleb.
  intros Hx Hy. rewrite (SFcompare_antisym (Prim2SF x) (Prim2SF y)).
  destruct (SFcompare (Prim2SF x) (Prim2SF y)) as [[]|] eqn:E; cbn;
    try congruence.
  apply SFcompare_None in E. tauto.
Qed.

Lemma eqb_not_ltb (x y : float) :
  (x =? y) = true -> (y <? x) = false.
Proof.
  rewrite FloatAxioms.eqb_spec, FloatAxioms.ltb_spec. unfold SFeqb, SFltb.
  rewrite (SFcompare_antisym (Prim2SF x) (Prim2SF y)).
  destruct (SFcompare (Prim2SF x) (Prim2SF y)) as [[]|]; cbn; congruence.
Qed.

Lemma ltb_leb (x y : float) : (x <? y) = true -> (x <=? y) = true.
Proof.
  rewrite FloatAxioms.ltb_spec, FloatAxioms.leb_spec. unfold SFltb, SFleb.
  destruct (SFcompare (Prim2SF x) (Prim2SF y)) as [[]|]; congruence.
Qed.

(** A number at least as large as a positive number is positive. *)
Lemma leb_pos (e x : float) :
  (0 <? e) = true -> (e <=? x) = true -> (0 <? x) = true.
Proof.
  rewrite !FloatAxioms.ltb_spec, FloatAxioms.leb_spec. unfold SFltb, SFleb.
  change (Prim2SF 0) with (S754_zero false).
  destruct (Prim2SF e) as [se|se| |se me ee],
           (Prim2SF x) as [sx|sx| |sx mx ex];
    try destruct se; try destruct sx; cbn; congruence.
Qed.

(** ** [Math.max] of two arguments *)

Lemma Math_max_nan (x e : float) :
  JS.isNaN x = true -> JS.Math_max [x; e] = nan.
Proof. intros H. unfold JS.Math_max. cbn [JS.max_loop]. now rewrite H. Qed.

Lemma Math_max_pair (x e : float) :
  JS.isNaN x = false -> JS.isNaN e = false -> JS.is_pos_zero e = false ->
  JS.Math_max [x; e] =
  let highest := if neg_infinity <? x then x else neg_infinity in
  if highest <? e then e else highest.
Proof.
  intros Hx He Hz. unfold JS.Math_max. cbn [JS.max_loop].
  rewrite Hx, He, Hz. cbn [andb].
  replace (JS.is_neg_zero neg_infinity) with false by reflexivity.
  now rewrite andb_false_r.
Qed.

(** [Math.max(x, e)] is never below [e]. *)
Lemma Math_max_lower (x e : float) :
  JS.isNaN x = false -> JS.isNaN e = false -> JS.is_pos_zero e = false ->
  (neg_infinity <? e) = true ->
  (e <=? JS.Math_max [x; e]) = true.
Proof.
  intros Hx He Hz Hinf. rewrite Math_max_pair by assumption. cbv zeta.
  destruct (neg_infinity <? x).
  - destruct (x <? e) eqn:E.
    + apply ltb_false_leb; trivial.
      apply eqb_not_ltb. unfold JS.isNaN, is_nan in He.
      now destruct (e =? e).
    + now apply ltb_false_leb.
  - rewrite Hinf. apply ltb_false_leb; trivial.
    apply eqb_not_ltb. unfold JS.isNaN, is_nan in He.
    now destruct (e =? e).
Qed.

(** Numbers that compare equal are the same number, unless they are
    zeros. *)
Lemma SFcompare_Eq (x y : spec_float) :
  SFcompare x y = Some Eq ->
  x = y \/ (exists sx sy, x = S754_zero sx /\ y = S754_zero sy).
Proof.
  destruct x as [sx|sx| |sx mx ex], y as [sy|sy| |sy my ey];
    try destruct sx; try destruct sy; cbn; try discriminate; eauto;
    destruct (Z.compare_spec ex ey) as [->|_|_]; try discriminate;
    intros H; left; f_equal; apply Pos.compare_eq;
    rewrite Pos.compare_cont_spec in H;
    destruct (mx ?= my)%positive; cbn in H; congruence.
Qed.

(** [Math.max(x, e)] is [e] when [x <= e], for a non-zero [e]. *)
Lemma Math_max_below (x e : float) :
  JS.isNaN e = false -> JS.is_pos_zero e = false ->
  (neg_infinity <? e) = true -> (e =? 0) = false ->
  (x <=? e) = true -> JS.Math_max [x; e] = e.
Proof.
  intros He Hz Hinf Hnz Hle.
  assert (Hx : JS.isNaN x = false).
  { apply is_nan_false. intros E.
    rewrite FloatAxioms.leb_spec, E in Hle. discriminate. }
  rewrite Math_max_pair by assumption. cbv zeta.
  destruct (neg_infinity <? x); [|now rewrite Hinf].
  destruct (x <? e) eqn:Hlt; [reflexivity|].
  apply Prim2SF_inj.
  rewrite FloatAxioms.leb_spec in Hle. rewrite FloatAxioms.ltb_spec in Hlt.
  rewrite FloatAxioms.eqb_spec in Hnz. unfold SFleb, SFltb, SFeqb in *.
  destruct (SFcompare (Prim2SF x) (Prim2SF e)) as [[]|] eqn:E;
    try discriminate.
  apply SFcompare_Eq in E. destruct E as [E|(sx & sy & _ & E)]; trivial.
  rewrite E in Hnz. change (Prim2SF 0) with (S754_zero false) in Hnz.
  discriminate.
Qed.

(** [Math.max(x, e)] is [x] when [e < x]. *)
Lemma Math_max_above (x e : float) :
  JS.isNaN e = false -> JS.is_pos_zero e = false ->
  (neg_infinity <? e) = true ->
  (e <? x) = true -> JS.Math_max [x; e] = x.
Proof.
  intros He Hz Hinf Hlt.
  assert (Hx : JS.isNaN x = false).
  { apply is_nan_false. intros E.
    rewrite FloatAxioms.ltb_spec, E in Hlt. unfold SFltb in Hlt.
    destruct (Prim2SF e); discriminate. }
  rewrite Math_max_pair by assumption. cbv zeta.
  assert (Hgt : (neg_infinity <? x) = true).
  { rewrite FloatAxioms.ltb_spec in Hlt, Hinf |- *. unfold SFltb in *.
    change (Prim2SF neg_infinity) with (S754_infinity true) in *.
    destruct (Prim2SF e) as [se|se| |se me ee],
             (Prim2SF x) as [sx|sx| |sx mx ex];
      try destruct se; try destruct sx; cbn in *; congruence. }
  rewrite Hgt.
  assert (Hnlt : (x <? e) = false).
  { rewrite FloatAxioms.ltb_spec in Hlt |- *. unfold SFltb in *.
    rewrite (SFcompare_antisym (Prim2SF e) (Prim2SF x)).
    destruct (SFcompare (Prim2SF e) (Prim2SF x)) as [[]|]; cbn;
      congruence. }
  now rewrite Hnlt.
Qed.

(** ** Rounding never invents a NaN *)

Lemma shr_1_nonneg (mrs : shr_record) :
  (0 <= shr_m mrs)%Z -> (0 <= shr_m (shr_1 mrs))%Z.
Proof.
  destruct mrs as [[|[p|p|]|p] r s]; cbn; intros H; try lia.
Qed.

Lemma iter_pos_invariant {A : Type} (P : A -> Prop) (f : A -> A) :
  (forall x, P x -> P (f x)) ->
  forall (n : positive) (x : A), P x -> P (@SpecFloat.iter_pos A f n x).
Proof.
  intros Hf. induction n as [n IH|n IH|]; cbn; intros x Hx; auto.
Qed.

Lemma shr_nonneg (mrs : shr_record) (e n : Z) :
  (0 <= shr_m mrs)%Z -> (0 <= shr_m (fst (shr mrs e n)))%Z.
Proof.
  intros H. destruct n; cbn; trivial.
  apply (iter_pos_invariant (fun r => 0 <= shr_m r)%Z); trivial.
  exact shr_1_nonneg.
Qed.

Lemma shr_fexp_nonneg (m e : Z) (l : location) :
  (0 <= m)%Z -> (0 <= shr_m (fst (shr_fexp prec emax m e l)))%Z.
Proof.
  intros H. unfold shr_fexp. apply shr_nonneg.
  destruct l as [|[]]; exact H.
Qed.

Lemma round_nearest_even_nonneg (m : Z) (l : location) :
  (0 <= m)%Z -> (0 <= round_nearest_even m l)%Z.
Proof.
  intros H. destruct l as [|[]]; cbn; try lia.
  destruct (Z.even m); lia.
Qed.

Lemma binary_round_aux_not_nan (sx : bool) (mx ex : Z) (lx : location) :
  (0 <= mx)%Z -> binary_round_aux prec emax sx mx ex lx <> S754_nan.
Proof.
  intros H. unfold binary_round_aux.
  pose proof (shr_fexp_nonneg mx ex lx H) as H1.
  destruct (shr_fexp prec emax mx ex lx) as [mrs' e']. cbn [fst] in H1.
  pose proof (shr_fexp_nonneg _ e' loc_Exact
                (round_nearest_even_nonneg _ (loc_of_shr_record mrs') H1))
    as H2.
  destruct (shr_fexp prec emax _ e' loc_Exact) as [mrs'' e''].
  cbn [fst] in H2.
  destruct (shr_m mrs''); try discriminate; try lia.
  destruct (e'' <=? emax - prec)%Z; discriminate.
Qed.

Lemma binary_round_not_nan (sx : bool) (mx : positive) (ex : Z) :
  binary_round prec emax sx mx ex <> S754_nan.
Proof.
  unfold binary_round. destruct (shl_align _ _ _) as [mz ez].
  apply binary_round_aux_not_nan. lia.
Qed.

Lemma binary_normalize_not_nan (m e : Z) (szero : bool) :
  binary_normalize prec emax m e szero <> S754_nan.
Proof.
  destruct m; cbn; try discriminate; apply binary_round_not_nan.
Qed.

Lemma of_uint63_not_nan (n : int) : is_nan (of_uint63 n) = false.
Proof.
  apply is_nan_false. rewrite FloatAxioms.of_uint63_spec.
  apply binary_normalize_not_nan.
Qed.

Lemma opp_not_nan (x : float) : is_nan x = false -> is_nan (- x) = false.
Proof.
  rewrite !is_nan_false, FloatAxioms.opp_spec.
  destruct (Prim2SF x); cbn; congruence.
Qed.

Lemma leb_zero_nonneg (x : float) :
  (0 <=? x) = true -> Shape.nonneg (Prim2SF x).
Proof.
  rewrite FloatAxioms.leb_spec. unfold SFleb.
  change (Prim2SF 0) with (S754_zero false).
  destruct (Prim2SF x) as [s|s| |s m e]; try destruct s; cbn;
    trivial; discriminate.
Qed.

Lemma add_nonneg_not_nan (x y : float) :
  (0 <=? x) = true -> (0 <=? y) = true -> is_nan (x + y) = false.
Proof.
  intros Hx%leb_zero_nonneg Hy%leb_zero_nonneg.
  apply is_nan_false. rewrite FloatAxioms.add_spec. unfold SF64add.
  destruct (Prim2SF x) as [sx|sx| |sx mx ex];
    destruct (Prim2SF y) as [sy|sy| |sy my ey];
    try destruct sx; try destruct sy; cbn in Hx, Hy |- *;
    try contradiction; try discriminate.
  apply binary_round_not_nan.
Qed.

Lemma mul_finite_not_nan (x y : float) :
  is_nan x = false ->
  (exists s m e, Prim2SF y = S754_finite s m e) ->
  is_nan (x * y) = false.
Proof.
  rewrite !is_nan_false, FloatAxioms.mul_spec. intros Hx (s & m & e & ->).
  unfold SF64mul.
  destruct (Prim2SF x) as [sx|sx| |sx mx ex]; cbn; try congruence.
  apply binary_round_aux_not_nan. lia.
Qed.

Lemma Math_floor_not_nan (x : float) :
  is_nan x = false -> is_nan (JS.Math_floor x) = false.
Proof.
  intros Hx. unfold JS.Math_floor.
  destruct (Prim2SF x) as [s|s| |s m e]; trivial.
  destruct (0 <=? e)%Z; trivial.
  destruct s; unfold JS.of_Z;
    [apply opp_not_nan|]; apply of_uint63_not_nan.
Qed.

(** ** Multiplying by one is exact *)

Lemma digits2_shift52 (m : positive) :
  Zpos (digits2_pos (4503599627370496 * m)) = (Zpos (digits2_pos m) + 52)%Z.
Proof. cbn [Pos.mul digits2_pos]. lia. Qed.

Lemma shr52 (m : positive) (e : Z) :
  shr {| shr_m := Zpos (4503599627370496 * m); shr_r := false; shr_s := false |}
      e 52
  = ({| shr_m := Zpos m; shr_r := false; shr_s := false |}, (e + 52)%Z).
Proof. reflexivity. Qed.

Lemma SFmul_one_r (x : spec_float) :
  valid_binary x = true ->
  SF64mul x (S754_finite false 4503599627370496 (-52)) = x.
Proof.
  destruct x as [s|s| |s m e]; cbn [SF64mul SFmul valid_binary];
    rewrite ?xorb_false_r; trivial.
  unfold bounded, canonical_mantissa. intros [Hc He]%andb_prop.
  apply Z.eqb_eq in Hc.
  rewrite (Pos.mul_comm m). unfold binary_round_aux, shr_fexp.
  cbn [Zdigits2]. rewrite digits2_shift52.
  replace (Zpos (digits2_pos m) + 52 + (e + -52))%Z
    with (Zpos (digits2_pos m) + e)%Z by lia.
  rewrite Hc. replace (e - (e + -52))%Z with 52%Z by lia.
  cbn [shr_record_of_loc]. rewrite shr52.
  cbn [shr_m loc_of_shr_record round_nearest_even Zdigits2].
  replace (e + -52 + 52)%Z with e by lia.
  rewrite Hc, Z.sub_diag. cbn [shr shr_record_of_loc shr_m].
  now rewrite He.
Qed.

Lemma mul_one_r (x : float) : x * 1 = x.
Proof.
  apply Prim2SF_inj. rewrite FloatAxioms.mul_spec.
  apply SFmul_one_r, Prim2SF_valid.
Qed.

(** ** Special values *)

Lemma ltb_zero_pos (c : float) :
  (0 <? c) = true ->
  Prim2SF c = S754_infinity false \/
  exists m e, Prim2SF c = S754_finite false m e.
Proof.
  rewrite FloatAxioms.ltb_spec. unfold SFltb.
  change (Prim2SF 0) with (S754_zero false).
  destruct (Prim2SF c) as [s|s| |s m e]; try destruct s; cbn;
    try discriminate; eauto.
Qed.

(** A positive number divided by (positive) zero is [Infinity]. *)
Lemma div_pos_zero (c : float) : (0 <? c) = true -> c / 0 = infinity.
Proof.
  intros H. apply Prim2SF_inj. rewrite FloatAxioms.div_spec.
  change (Prim2SF 0) with (S754_zero false).
  change (Prim2SF infinity) with (S754_infinity false).
  destruct (ltb_zero_pos c H) as [->|(m & e & ->)]; reflexivity.
Qed.

Lemma mul_nan_l (x y : float) : is_nan x = true -> is_nan (x * y) = true.
Proof.
  rewrite !is_nan_spec, FloatAxioms.mul_spec. now intros ->.
Qed.

Lemma progress_fraction (i : nat) :
  (i < points)%nat -> Shape.fraction (Prim2SF (progress i)).
Proof.
  unfold points. intros H.
  do 24 (destruct i as [|i]; [vm_compute; exact I|]). lia.
Qed.

(** From an infinite start price every trend value is NaN. *)
Lemma trendPrice_infinity (c f : float) :
  (0 <? c) = true -> Shape.fraction (Prim2SF f) ->
  is_nan (trendPrice infinity c f) = true.
Proof.
  intros Hc Hf. apply is_nan_spec. unfold trendPrice.
  rewrite FloatAxioms.add_spec, FloatAxioms.mul_spec, FloatAxioms.sub_spec.
  change (Prim2SF infinity) with (S754_infinity false).
  destruct (Prim2SF f) as [s|s| |s m e]; try destruct s;
    cbn in Hf; try contradiction;
    destruct (ltb_zero_pos c Hc) as [->|(mc & ec & ->)]; reflexivity.
Qed.

(** The trend value at progress [+0] is the start price, unless it is
    NaN. *)
Lemma trendPrice_zero (s c : float) :
  is_nan (trendPrice s c 0) = false -> (trendPrice s c 0 =? s) = true.
Proof.
  rewrite is_nan_false, FloatAxioms.eqb_spec. unfold trendPrice, SFeqb.
  rewrite FloatAxioms.add_spec, FloatAxioms.mul_spec.
  change (Prim2SF 0) with (S754_zero false).
  destruct (Prim2SF (c - s)) as [sd|sd| |sd md ed];
    destruct (Prim2SF s) as [ss|ss| |ss ms es] eqn:Es;
    try destruct sd; try destruct ss; cbn; try congruence;
    intros _; rewrite Z.compare_refl, Pos.compare_cont_refl; reflexivity.
Qed.

(** ** Multiplication commutes *)

Lemma SFmul_comm (x y : spec_float) : SF64mul x y = SF64mul y x.
Proof.
  destruct x as [sx|sx| |sx mx ex], y as [sy|sy| |sy my ey];
    cbn [SF64mul SFmul]; rewrite ?(xorb_comm sx sy); try reflexivity.
  now rewrite (Pos.mul_comm mx my), (Z.add_comm ex ey).
Qed.

Lemma mul_comm (x y : float) : x * y = y * x.
Proof.
  apply Prim2SF_inj. rewrite !FloatAxioms.mul_spec. apply SFmul_comm.
Qed.

End FloatFacts.

(* ================================================================== *)
(** * Exact subtraction: numbers within a factor of two *)
(* ================================================================== *)

Module Exactness.

Local Open Scope Z_scope.

(** ** Digits *)

Lemma digits2_size (p : positive) : digits2_pos p = Pos.size p.
Proof. induction p; cbn; congruence. Qed.

Lemma digits2_lt_pow (p : positive) : Zpos p < 2 ^ Zpos (digits2_pos p).
Proof.
  rewrite digits2_size. pose proof (Pos.size_gt p) as H.
  apply Pos2Z.pos_lt_pos in H. now rewrite Pos2Z.inj_pow in H.
Qed.

Lemma digits2_le_pow (p : positive) : 2 ^ (Zpos (digits2_pos p) - 1) <= Zpos p.
Proof.
  rewrite digits2_size. pose proof (Pos.size_le p) as H.
  apply Pos2Z.pos_le_pos in H. rewrite Pos2Z.inj_pow in H.
  change (Zpos p~0) with (2 * Zpos p) in H.
  replace (Zpos (Pos.size p)) with (Zpos (Pos.size p) - 1 + 1) in H by lia.
  rewrite Z.pow_add_r, Z.pow_1_r in H by lia. lia.
Qed.

Lemma digits2_le (p : positive) (k : Z) :
  Zpos p < 2 ^ k -> Zpos (digits2_pos p) <= k.
Proof.
  intros H. pose proof (digits2_le_pow p) as H1.
  destruct (Z_le_gt_dec (Zpos (digits2_pos p)) k) as [|Hgt]; trivial.
  assert (2 ^ k <= 2 ^ (Zpos (digits2_pos p) - 1)).
  { apply Z.pow_le_mono_r; lia. }
  lia.
Qed.

Lemma digits2_shift (p : positive) (d : positive) :
  Zpos (digits2_pos (Pos.iter xO p d)) = Zpos (digits2_pos p) + Zpos d.
Proof.
  induction d as [|d IH] using Pos.peano_ind.
  - cbn. lia.
  - rewrite Pos.iter_succ. cbn [digits2_pos]. lia.
Qed.

Lemma iter_xO_value (p d : positive) :
  Zpos (Pos.iter xO p d) = Zpos p * 2 ^ Zpos d.
Proof.
  induction d as [|d IH] using Pos.peano_ind.
  - cbn. lia.
  - rewrite Pos.iter_succ, Pos2Z.inj_succ, Z.pow_succ_r by lia.
    rewrite Pos2Z.inj_xO, IH. ring.
Qed.

(** ** Shifting right by [d] after shifting left by [d] *)

Lemma iter_pos_iter {A : Type} (f : A -> A) (n : positive) (x : A) :
  @SpecFloat.iter_pos A f n x = Pos.iter f x n.
Proof.
  revert x. induction n as [n IH|n IH|]; intros x; cbn.
  - now rewrite !IH, <- !Pos.iter_swap.
  - now rewrite !IH.
  - reflexivity.
Qed.

Lemma shr_shifted (p d : positive) (e : Z) :
  shr {| shr_m := Zpos (Pos.iter xO p d); shr_r := false; shr_s := false |}
      e (Zpos d)
  = ({| shr_m := Zpos p; shr_r := false; shr_s := false |}, e + Zpos d).
Proof.
  unfold shr. f_equal. rewrite iter_pos_iter.
  induction d as [|d IH] using Pos.peano_ind.
  - reflexivity.
  - rewrite (Pos.iter_succ_r d shr_record shr_1).
    rewrite (Pos.iter_succ d positive xO). cbn [shr_1 orb].
    exact IH.
Qed.

(** ** Canonical representations *)

Lemma fexp_eq (d : Z) : fexp prec emax d = Z.max (d - 53) (-1074).
Proof. reflexivity. Qed.

Lemma bounded_inv (m : positive) (e : Z) :
  bounded prec emax m e = true ->
  Z.max (Zpos (digits2_pos m) + e - 53) (-1074) = e /\ e <= 971.
Proof.
  unfold bounded, canonical_mantissa. rewrite fexp_eq.
  intros [H1 H2]%andb_prop. apply Z.eqb_eq in H1. apply Z.leb_le in H2.
  change (emax - prec) with 971 in H2. now split.
Qed.

Lemma bounded_intro (m : positive) (e : Z) :
  Z.max (Zpos (digits2_pos m) + e - 53) (-1074) = e -> e <= 971 ->
  bounded prec emax m e = true.
Proof.
  intros H1 H2. unfold bounded, canonical_mantissa. rewrite fexp_eq.
  apply andb_true_intro. split.
  - now apply Z.eqb_eq.
  - apply Z.leb_le. now change (emax - prec) with 971.
Qed.

(** Rounding a canonical mantissa leaves it as it is. *)
Lemma binary_round_aux_canonical (sx : bool) (m : positive) (e : Z) :
  bounded prec emax m e = true ->
  binary_round_aux prec emax sx (Zpos m) e loc_Exact = S754_finite sx m e.
Proof.
  intros [Hc He]%bounded_inv.
  unfold binary_round_aux, shr_fexp. cbn [Zdigits2 shr_record_of_loc].
  rewrite fexp_eq, Hc, Z.sub_diag. cbn [shr shr_m loc_of_shr_record
    round_nearest_even Zdigits2 shr_record_of_loc].
  rewrite fexp_eq, Hc, Z.sub_diag. cbn [shr shr_m].
  change (emax - prec) with 971. apply Z.leb_le in He. now rewrite He.
Qed.

(** Rounding a canonical mantissa that was shifted left by [j] binary
    places shifts it back. *)
Lemma binary_normalize_shifted (m : positive) (e j : Z) (szero : bool) :
  bounded prec emax m e = true -> 0 <= j ->
  binary_normalize prec emax (Zpos m * 2 ^ j) (e - j) szero
  = S754_finite false m e.
Proof.
  intros Hb Hj. pose proof (bounded_inv m e Hb) as [Hc He].
  destruct j as [|d|d]; [| |lia].
  - rewrite Z.pow_0_r, Z.mul_1_r, Z.sub_0_r.
    cbn [binary_normalize]. unfold binary_round, shl_align.
    rewrite fexp_eq, Hc, Z.sub_diag.
    now apply binary_round_aux_canonical.
  - rewrite <- iter_xO_value. cbn [binary_normalize].
    unfold binary_round, shl_align. rewrite fexp_eq, digits2_shift.
    replace (Zpos (digits2_pos m) + Zpos d + (e - Zpos d) - 53)
      with (Zpos (digits2_pos m) + e - 53) by lia.
    rewrite Hc. replace (e - (e - Zpos d)) with (Zpos d) by lia.
    unfold binary_round_aux, shr_fexp.
    cbn [Zdigits2 shr_record_of_loc]. rewrite fexp_eq, digits2_shift.
    replace (Zpos (digits2_pos m) + Zpos d + (e - Zpos d) - 53)
      with (Zpos (digits2_pos m) + e - 53) by lia.
    rewrite Hc. replace (e - (e - Zpos d)) with (Zpos d) by lia.
    rewrite shr_shifted.
    cbn [shr_m loc_of_shr_record round_nearest_even Zdigits2
           shr_record_of_loc].
    replace (e - Zpos d + Zpos d) with e by lia.
    rewrite fexp_eq, Hc, Z.sub_diag. cbn [shr shr_m].
    change (emax - prec) with 971. apply Z.leb_le in He. now rewrite He.
Qed.

(** A mantissa of at most 53 digits is normalised without rounding. *)
Lemma binary_round_small (sx : bool) (M : positive) (ez : Z) :
  Zpos (digits2_pos M) <= 53 -> -1074 <= ez <= 971 ->
  exists M' e',
    binary_round prec emax sx M ez = S754_finite sx M' e' /\
    bounded prec emax M' e' = true /\
    e' <= ez /\
    Zpos M' = Zpos M * 2 ^ (ez - e').
Proof.
  intros Hd He. unfold binary_round, shl_align. rewrite fexp_eq.
  destruct (Z.max (Zpos (digits2_pos M) + ez - 53) (-1074) - ez)
    as [|d|d] eqn:E; [| lia |].
  - exists M, ez. rewrite Z.sub_diag, Z.pow_0_r, Z.mul_1_r.
    assert (Hb : bounded prec emax M ez = true)
      by (apply bounded_intro; lia).
    repeat split; trivial; try lia.
    now apply binary_round_aux_canonical.
  - set (f := Z.max (Zpos (digits2_pos M) + ez - 53) (-1074)) in *.
    exists (Pos.iter xO M d), f.
    assert (Hb : bounded prec emax (Pos.iter xO M d) f = true).
    { apply bounded_intro; [rewrite digits2_shift|]; lia. }
    repeat split; trivial; try lia.
    + now apply binary_round_aux_canonical.
    + rewrite iter_xO_value. f_equal. f_equal. lia.
Qed.

(** Two canonical representations of one value are the same. *)
Lemma canonical_unique (m1 m2 : positive) (e1 e2 ez : Z) :
  bounded prec emax m1 e1 = true -> bounded prec emax m2 e2 = true ->
  ez <= e1 -> ez <= e2 ->
  Zpos m1 * 2 ^ (e1 - ez) = Zpos m2 * 2 ^ (e2 - ez) ->
  m1 = m2 /\ e1 = e2.
Proof.
  intros [H1 _]%bounded_inv [H2 _]%bounded_inv L1 L2 Hv.
  assert (D : forall (m : positive) (k : Z), 0 <= k ->
            exists q, Zpos q = Zpos m * 2 ^ k /\
                      Zpos (digits2_pos q) = Zpos (digits2_pos m) + k).
  { intros m [|d|d] Hk; [| |lia].
    - exists m. rewrite Z.pow_0_r. lia.
    - exists (Pos.iter xO m d). now rewrite iter_xO_value, digits2_shift. }
  destruct (D m1 (e1 - ez) ltac:(lia)) as (q1 & V1 & D1).
  destruct (D m2 (e2 - ez) ltac:(lia)) as (q2 & V2 & D2).
  assert (q1 = q2) by (apply Pos2Z.inj; congruence). subst q2.
  assert (e1 = e2) by lia. subst e2. split; trivial.
  apply Pos2Z.inj. rewrite V1 in V2.
  apply Z.mul_cancel_r in V2; trivial.
  apply Z.pow_nonzero; lia.
Qed.

(** ** Sterbenz: subtracting and adding back *)

Lemma shl_align_fst (m : positive) (e ez : Z) :
  ez <= e -> Zpos (fst (shl_align m e ez)) = Zpos m * 2 ^ (e - ez).
Proof.
  intros H. unfold shl_align.
  destruct (ez - e) as [|d|d] eqn:E; [| lia |]; cbn [fst].
  - replace (e - ez) with 0 by lia. rewrite Z.pow_0_r. lia.
  - rewrite iter_xO_value. f_equal. f_equal. lia.
Qed.

Lemma mantissa_lt (m : positive) (e : Z) :
  bounded prec emax m e = true -> Zpos m < 2 ^ 53 /\ -1074 <= e <= 971.
Proof.
  intros [Hc He]%bounded_inv. split; [|lia].
  eapply Z.lt_le_trans; [apply digits2_lt_pow|].
  apply Z.pow_le_mono_r; lia.
Qed.

Lemma pow_split (a b c : Z) :
  c <= b -> b <= a -> 2 ^ (a - b) * 2 ^ (b - c) = 2 ^ (a - c).
Proof.
  intros. rewrite <- Z.pow_add_r by lia. f_equal. lia.
Qed.

(** Aligned on the smaller exponent, the mantissas of two numbers within a
    factor of two of each other differ by less than 2^53. *)
Lemma aligned_diff_small (mc ms : positive) (ec es : Z) :
  bounded prec emax mc ec = true -> bounded prec emax ms es = true ->
  Zpos ms * 2 ^ (es - Z.min ec es) <= 2 * (Zpos mc * 2 ^ (ec - Z.min ec es)) ->
  Zpos mc * 2 ^ (ec - Z.min ec es) <= 2 * (Zpos ms * 2 ^ (es - Z.min ec es)) ->
  Z.abs (Zpos mc * 2 ^ (ec - Z.min ec es) - Zpos ms * 2 ^ (es - Z.min ec es))
    < 2 ^ 53.
Proof.
  intros Hbc Hbs.
  pose proof (mantissa_lt mc ec Hbc) as [Lc Rc].
  pose proof (mantissa_lt ms es Hbs) as [Ls Rs].
  set (ez := Z.min ec es).
  assert (Hzc : ez <= ec) by (unfold ez; lia).
  assert (Hzs : ez <= es) by (unfold ez; lia).
  set (C := Zpos mc * 2 ^ (ec - ez)). set (S := Zpos ms * 2 ^ (es - ez)).
  intros H1 H2.
  destruct (Z.min_spec ec es) as [[_ E]|[_ E]]; fold ez in E.
  - assert (C = Zpos mc)
      by (unfold C; rewrite E, Z.sub_diag, Z.pow_0_r; lia).
    assert (0 < S)
      by (unfold S; apply Z.mul_pos_pos; [|apply Z.pow_pos_nonneg]; lia).
    lia.
  - assert (S = Zpos ms)
      by (unfold S; rewrite E, Z.sub_diag, Z.pow_0_r; lia).
    assert (0 < C)
      by (unfold C; apply Z.mul_pos_pos; [|apply Z.pow_pos_nonneg]; lia).
    lia.
Qed.

Lemma SF_sub_add_back (mc ms : positive) (ec es : Z) :
  bounded prec emax mc ec = true -> bounded prec emax ms es = true ->
  Zpos ms * 2 ^ (es - Z.min ec es) <= 2 * (Zpos mc * 2 ^ (ec - Z.min ec es)) ->
  Zpos mc * 2 ^ (ec - Z.min ec es) <= 2 * (Zpos ms * 2 ^ (es - Z.min ec es)) ->
  SF64add (S754_finite false ms es)
          (SF64sub (S754_finite false mc ec) (S754_finite false ms es))
  = S754_finite false mc ec.
Proof.
  intros Hbc Hbs.
  pose proof (mantissa_lt mc ec Hbc) as [Lc Rc].
  pose proof (mantissa_lt ms es Hbs) as [Ls Rs].
  intros H1 H2. pose proof (aligned_diff_small mc ms ec es Hbc Hbs H1 H2) as HM.
  revert H1 H2 HM.
  set (ez := Z.min ec es).
  assert (Hzc : ez <= ec) by (unfold ez; lia).
  assert (Hzs : ez <= es) by (unfold ez; lia).
  set (C := Zpos mc * 2 ^ (ec - ez)). set (S := Zpos ms * 2 ^ (es - ez)).
  intros H1 H2 HM.
  unfold SF64sub, SFsub. cbn [cond_Zopp]. fold ez.
  rewrite !shl_align_fst by assumption. fold C S.
  destruct (C - S) as [|p|p] eqn:EM.
  - (* equal values *)
    cbn [binary_normalize]. cbn [SF64add SFadd].
    destruct (canonical_unique mc ms ec es ez) as [-> ->]; trivial.
    fold C S. lia.
  - (* current above start *)
    cbn [binary_normalize].
    destruct (binary_round_small false p ez) as (M' & e' & -> & Hb & He & Hv).
    { apply digits2_le. cbn [Z.abs] in HM. exact HM. }
    { lia. }
    unfold SF64add, SFadd. cbn [cond_Zopp].
    replace (Z.min es e') with e' by lia.
    rewrite !shl_align_fst by lia.
    rewrite Z.sub_diag, Z.pow_0_r, Z.mul_1_r, Hv.
    replace (Zpos ms * 2 ^ (es - e') + Zpos p * 2 ^ (ez - e'))
      with (Zpos mc * 2 ^ (ec - e')).
    + replace e' with (ec - (ec - e')) at 2 by lia.
      apply binary_normalize_shifted; trivial. lia.
    + rewrite <- (pow_split ec ez e'), <- (pow_split es ez e') by lia.
      rewrite !Z.mul_assoc. fold C S. lia.
  - (* current below start *)
    cbn [binary_normalize].
    destruct (binary_round_small true p ez) as (M' & e' & -> & Hb & He & Hv).
    { apply digits2_le. cbn [Z.abs] in HM. exact HM. }
    { lia. }
    unfold SF64add, SFadd. cbn [cond_Zopp].
    replace (Z.min es e') with e' by lia.
    rewrite !shl_align_fst by lia.
    rewrite Z.sub_diag, Z.pow_0_r, Z.mul_1_r, Hv.
    replace (Zpos ms * 2 ^ (es - e') + - (Zpos p * 2 ^ (ez - e')))
      with (Zpos mc * 2 ^ (ec - e')).
    + replace e' with (ec - (ec - e')) at 2 by lia.
      apply binary_normalize_shifted; trivial. lia.
    + rewrite <- (pow_split ec ez e'), <- (pow_split es ez e') by lia.
      rewrite !Z.mul_assoc. fold C S. lia.
Qed.

(** Under the same condition the difference is a zero or a finite number. *)
Lemma SF_sub_finite (mc ms : positive) (ec es : Z) :
  bounded prec emax mc ec = true -> bounded prec emax ms es = true ->
  Zpos ms * 2 ^ (es - Z.min ec es) <= 2 * (Zpos mc * 2 ^ (ec - Z.min ec es)) ->
  Zpos mc * 2 ^ (ec - Z.min ec es) <= 2 * (Zpos ms * 2 ^ (es - Z.min ec es)) ->
  SF64sub (S754_finite false mc ec) (S754_finite false ms es)
    = S754_zero false \/
  exists sd md ed,
    SF64sub (S754_finite false mc ec) (S754_finite false ms es)
      = S754_finite sd md ed.
Proof.
  intros Hbc Hbs.
  pose proof (mantissa_lt mc ec Hbc) as [Lc Rc].
  pose proof (mantissa_lt ms es Hbs) as [Ls Rs].
  intros H1 H2. pose proof (aligned_diff_small mc ms ec es Hbc Hbs H1 H2) as HM.
  revert H1 H2 HM.
  set (ez := Z.min ec es).
  assert (Hzc : ez <= ec) by (unfold ez; lia).
  assert (Hzs : ez <= es) by (unfold ez; lia).
  set (C := Zpos mc * 2 ^ (ec - ez)). set (S := Zpos ms * 2 ^ (es - ez)).
  intros H1 H2 HM.
  unfold SF64sub, SFsub. cbn [cond_Zopp]. fold ez.
  rewrite !shl_align_fst by assumption. fold C S.
  destruct (C - S) as [|p|p] eqn:EM; cbn [binary_normalize].
  - now left.
  - right. destruct (binary_round_small false p ez) as (M' & e' & -> & _).
    { apply digits2_le. cbn [Z.abs] in HM. exact HM. }
    { lia. }
    now exists false, M', e'.
  - right. destruct (binary_round_small true p ez) as (M' & e' & -> & _).
    { apply digits2_le. cbn [Z.abs] in HM. exact HM. }
    { lia. }
    now exists true, M', e'.
Qed.

(** ** Doubling and comparing *)

Lemma binary_round_aux_shifted (sx : bool) (m d : positive) (e : Z) :
  canonical_mantissa prec emax m e = true ->
  binary_round_aux prec emax sx (Zpos (Pos.iter xO m d)) (e - Zpos d) loc_Exact
  = if e <=? 971 then S754_finite sx m e else S754_infinity sx.
Proof.
  unfold canonical_mantissa. rewrite fexp_eq. intros Hc%Z.eqb_eq.
  unfold binary_round_aux, shr_fexp.
  cbn [Zdigits2 shr_record_of_loc]. rewrite fexp_eq, digits2_shift.
  replace (Zpos (digits2_pos m) + Zpos d + (e - Zpos d) - 53)
    with (Zpos (digits2_pos m) + e - 53) by lia.
  rewrite Hc. replace (e - (e - Zpos d)) with (Zpos d) by lia.
  rewrite shr_shifted.
  cbn [shr_m loc_of_shr_record round_nearest_even Zdigits2
         shr_record_of_loc].
  replace (e - Zpos d + Zpos d) with e by lia.
  rewrite fexp_eq, Hc, Z.sub_diag. cbn [shr shr_m]. reflexivity.
Qed.

(** The double of a positive finite number: [Infinity], or a finite
    number whose value is twice as large. *)
Lemma SFmul_two (m : positive) (e : Z) :
  bounded prec emax m e = true ->
  (SF64mul (S754_finite false 4503599627370496 (-51)) (S754_finite false m e)
     = S754_infinity false /\
   e = 971 /\ Zpos (digits2_pos m) = 53) \/
  exists m2 e2,
    SF64mul (S754_finite false 4503599627370496 (-51)) (S754_finite false m e)
      = S754_finite false m2 e2 /\
    bounded prec emax m2 e2 = true /\ e <= e2 /\
    Zpos m2 * 2 ^ (e2 - e) = 2 * Zpos m.
Proof.
  intros Hb. pose proof (bounded_inv m e Hb) as [Hc He].
  pose proof (digits2_lt_pow m) as Hlt.
  cbn [SF64mul SFmul xorb].
  destruct (Z.eq_dec (Zpos (digits2_pos m)) 53) as [Hd|Hd].
  - (* normal: the exponent goes up by one *)
    change (Zpos (4503599627370496 * m)) with (Zpos (Pos.iter xO m 52)).
    replace (-51 + e) with (e + 1 - 52) by lia.
    rewrite binary_round_aux_shifted
      by (unfold canonical_mantissa; rewrite fexp_eq; apply Z.eqb_eq; lia).
    destruct (Z.leb_spec (e + 1) 971) as [Hle|Hgt].
    + right. exists m, (e + 1). repeat split; try lia.
      * apply bounded_intro; lia.
      * replace (e + 1 - e) with 1 by lia. lia.
    + left. repeat split; lia.
  - (* subnormal: the mantissa doubles *)
    assert (Zpos (digits2_pos m) <= 52) by lia.
    change (Zpos (4503599627370496 * m)) with (Zpos (Pos.iter xO (xO m) 51)).
    replace (-51 + e) with (e - 51) by lia.
    rewrite binary_round_aux_shifted
      by (unfold canonical_mantissa; rewrite fexp_eq; apply Z.eqb_eq;
          cbn [digits2_pos]; lia).
    apply Z.leb_le in He. rewrite He.
    right. exists (xO m), e. repeat split; try lia.
    + apply bounded_intro; cbn [digits2_pos]; lia.
    + rewrite Z.sub_diag, Z.pow_0_r. lia.
Qed.

(** [<=] on positive finite numbers is [<=] on their values. *)
Lemma SFleb_value (m1 m2 : positive) (e1 e2 ez : Z) :
  bounded prec emax m1 e1 = true -> bounded prec emax m2 e2 = true ->
  ez <= e1 -> ez <= e2 ->
  SFleb (S754_finite false m1 e1) (S754_finite false m2 e2) = true ->
  Zpos m1 * 2 ^ (e1 - ez) <= Zpos m2 * 2 ^ (e2 - ez).
Proof.
  intros Hb1 Hb2 L1 L2.
  pose proof (bounded_inv m1 e1 Hb1) as [Hc1 He1].
  pose proof (bounded_inv m2 e2 Hb2) as [Hc2 He2].
  unfold SFleb, SFcompare.
  destruct (Z.compare_spec e1 e2) as [E|E|E]; [subst e2| |discriminate].
  - rewrite Pos.compare_cont_spec. cbn [Pos.switch_Eq].
    intros H.
    assert (Hle : (m1 <= m2)%positive).
    { unfold Pos.le. intros Hgt. rewrite Hgt in H. discriminate. }
    apply Z.mul_le_mono_nonneg_r; [apply Z.pow_nonneg; lia | lia].
  - intros _.
    pose proof (digits2_lt_pow m1) as Hlt.
    pose proof (digits2_le_pow m2) as Hge.
    assert (Hd2 : Zpos (digits2_pos m2) = 53) by lia.
    rewrite Hd2 in Hge. change (53 - 1) with 52 in Hge.
    assert (Hm1 : Zpos m1 < 2 ^ 53).
    { eapply Z.lt_le_trans; [exact Hlt|]. apply Z.pow_le_mono_r; lia. }
    assert (Hp : 2 * 2 ^ (e1 - ez) <= 2 ^ (e2 - ez)).
    { rewrite <- Z.pow_succ_r by lia. apply Z.pow_le_mono_r; lia. }
    assert (0 < 2 ^ (e1 - ez)) by (apply Z.pow_pos_nonneg; lia).
    change (2 ^ 53) with (2 * 2 ^ 52) in Hm1.
    nia.
Qed.

Lemma SFleb_double_value (m1 m2 : positive) (e1 e2 ez : Z) :
  bounded prec emax m1 e1 = true -> bounded prec emax m2 e2 = true ->
  ez <= e1 -> ez <= e2 ->
  SFleb (S754_finite false m1 e1)
        (SF64mul (S754_finite false 4503599627370496 (-51))
                 (S754_finite false m2 e2)) = true ->
  Zpos m1 * 2 ^ (e1 - ez) <= 2 * (Zpos m2 * 2 ^ (e2 - ez)).
Proof.
  intros Hb1 Hb2 L1 L2.
  pose proof (mantissa_lt m1 e1 Hb1) as [Lt1 R1].
  destruct (SFmul_two m2 e2 Hb2)
    as [(-> & E2 & D2)|(m & e & -> & Hb & Le & Hv)].
  - intros _. pose proof (digits2_le_pow m2) as Hge.
    rewrite D2 in Hge. change (53 - 1) with 52 in Hge.
    assert (2 ^ (e1 - ez) <= 2 ^ (e2 - ez))
      by (apply Z.pow_le_mono_r; lia).
    assert (0 < 2 ^ (e1 - ez)) by (apply Z.pow_pos_nonneg; lia).
    change (2 ^ 53) with (2 * 2 ^ 52) in Lt1. nia.
  - intros H%(SFleb_value m1 m e1 e ez); trivial; [|lia].
    rewrite <- (pow_split e e2 ez), Z.mul_assoc, Hv in H by lia. lia.
Qed.

Lemma positive_finite (x : float) :
  (0 <? x)%float = true -> (x <? infinity)%float = true ->
  exists m e,
    Prim2SF x = S754_finite false m e /\ bounded prec emax m e = true.
Proof.
  intros H0 Hinf. pose proof (Prim2SF_valid x) as Hv.
  rewrite FloatAxioms.ltb_spec in H0, Hinf. unfold SFltb in H0, Hinf.
  change (Prim2SF 0) with (S754_zero false) in H0.
  change (Prim2SF infinity) with (S754_infinity false) in Hinf.
  destruct (Prim2SF x) as [s|s| |s m e]; try destruct s; cbn in H0, Hinf;
    try discriminate.
  exists m, e. split; [reflexivity | exact Hv].
Qed.

(** Sterbenz: when two positive finite numbers are within a factor of two
    of each other, their difference is computed exactly, and adding it
    back returns the minuend. *)
Theorem sub_add_back (c s : float) :
  (0 <? c)%float = true -> (c <? infinity)%float = true ->
  (0 <? s)%float = true -> (s <? infinity)%float = true ->
  (s <=? 2 * c)%float = true -> (c <=? 2 * s)%float = true ->
  (s + (c - s))%float = c.
Proof.
  intros Hc0 Hci Hs0 Hsi H1 H2.
  destruct (positive_finite c Hc0 Hci) as (mc & ec & Ec & Hbc).
  destruct (positive_finite s Hs0 Hsi) as (ms & es & Es & Hbs).
  rewrite FloatAxioms.leb_spec, FloatAxioms.mul_spec in H1, H2.
  change (Prim2SF 2) with (S754_finite false 4503599627370496 (-51)) in H1, H2.
  rewrite Ec, Es in H1, H2.
  apply Prim2SF_inj.
  rewrite FloatAxioms.add_spec, FloatAxioms.sub_spec, Ec, Es.
  apply SF_sub_add_back; trivial.
  - apply SFleb_double_value; trivial; lia.
  - apply SFleb_double_value; trivial; lia.
Qed.

(** Under the same condition, adding [+0] times the difference leaves the
    subtrahend as it is. *)
Theorem add_zero_times_diff (c s : float) :
  (0 <? c)%float = true -> (c <? infinity)%float = true ->
  (0 <? s)%float = true -> (s <? infinity)%float = true ->
  (s <=? 2 * c)%float = true -> (c <=? 2 * s)%float = true ->
  (s + (c - s) * 0)%float = s.
Proof.
  intros Hc0 Hci Hs0 Hsi H1 H2.
  destruct (positive_finite c Hc0 Hci) as (mc & ec & Ec & Hbc).
  destruct (positive_finite s Hs0 Hsi) as (ms & es & Es & Hbs).
  rewrite FloatAxioms.leb_spec, FloatAxioms.mul_spec in H1, H2.
  change (Prim2SF 2) with (S754_finite false 4503599627370496 (-51)) in H1, H2.
  rewrite Ec, Es in H1, H2.
  apply Prim2SF_inj.
  rewrite FloatAxioms.add_spec, FloatAxioms.mul_spec, FloatAxioms.sub_spec,
    Ec, Es.
  change (Prim2SF 0) with (S754_zero false).
  destruct (SF_sub_finite mc ms ec es) as [->|(sd & md & ed & ->)]; trivial;
    try (apply SFleb_double_value; trivial; lia); reflexivity.
Qed.

End Exactness.

(* ================================================================== *)
(** * The generated series *)
(* ================================================================== *)

Lemma fold_left_push {A B : Type} (f : A -> B) (l : list A) (acc : list B) :
  fold_left (fun data i => data ++ [f i]) l acc = acc ++ map f l.
Proof.
  revert acc. induction l as [|x l IH]; intros acc; cbn.
  - now rewrite app_nil_r.
  - now rewrite IH, <- app_assoc.
Qed.

(** The loop pushes [pointAt 0], ..., [pointAt (points - 1)], in this order. *)
Lemma chartData_pointAt (toLocaleTimeString : Z -> string) (st : State)
    (a : TokenAnalytics.t) (Date_now : nat -> Z) (Math_random : nat -> float) :
  analytics st = Some a ->
  chartData toLocaleTimeString st Date_now Math_random =
  map (pointAt toLocaleTimeString
         (TokenDetails.price (TokenAnalytics.details a))
         (TokenDetails.priceChange24h (TokenAnalytics.details a))
         Date_now Math_random)
      (seq 0 points).
Proof.
  intros Ha. unfold chartData. rewrite Ha.
  exact (fold_left_push _ (seq 0 points) []).
Qed.

Lemma chartData_None (toLocaleTimeString : Z -> string) (st : State)
    (Date_now : nat -> Z) (Math_random : nat -> float) :
  analytics st = None ->
  chartData toLocaleTimeString st Date_now Math_random = [].
Proof. intros Ha. unfold chartData. now rewrite Ha. Qed.

Lemma chartData_length (toLocaleTimeString : Z -> string) (st : State)
    (a : TokenAnalytics.t) (Date_now : nat -> Z) (Math_random : nat -> float) :
  analytics st = Some a ->
  List.length (chartData toLocaleTimeString st Date_now Math_random) = points.
Proof.
  intros Ha. rewrite (chartData_pointAt _ _ a) by assumption.
  now rewrite length_map, length_seq.
Qed.

Lemma chartData_nth (toLocaleTimeString : Z -> string) (st : State)
    (a : TokenAnalytics.t) (Date_now : nat -> Z) (Math_random : nat -> float)
    (i : nat) :
  analytics st = Some a ->
  (i < points)%nat ->
  nth_error (chartData toLocaleTimeString st Date_now Math_random) i =
  Some (pointAt toLocaleTimeString
          (TokenDetails.price (TokenAnalytics.details a))
          (TokenDetails.priceChange24h (TokenAnalytics.details a))
          Date_now Math_random i).
Proof.
  intros Ha Hi. rewrite (chartData_pointAt _ _ a) by assumption.
  rewrite nth_error_map, nth_error_seq.
  destruct (Nat.ltb_spec i points) as [_|H]; [reflexivity | lia].
Qed.

Lemma chartData_In (toLocaleTimeString : Z -> string) (st : State)
    (Date_now : nat -> Z) (Math_random : nat -> float) (pt : PricePoint.t) :
  In pt (chartData toLocaleTimeString st Date_now Math_random) ->
  exists a i,
    analytics st = Some a /\ (i < points)%nat /\
    pt = pointAt toLocaleTimeString
           (TokenDetails.price (TokenAnalytics.details a))
           (TokenDetails.priceChange24h (TokenAnalytics.details a))
           Date_now Math_random i.
Proof.
  destruct (analytics st) as [a|] eqn:Ha.
  - rewrite (chartData_pointAt _ _ a) by assumption.
    intros (i & <- & Hi%in_seq)%in_map_iff. exists a, i. repeat split. lia.
  - rewrite chartData_None by assumption. intros [].
Qed.

(** C1.  The start price used by the series reconstructor is
    [current / (1 + changePct / 100)], the correctly rounded binary64
    quotient, whatever the random draws are: for every record, clock and
    stream of draws, the price emitted at index [i] is
    [Math.max((start + (current - start) * progress) * (1 + noise), 0.0001)]
    with that one [start]; the perturbation multiplies the trend value and
    never enters [start]. *)
Theorem C1_start_price_exact :
  forall (toLocaleTimeString : Z -> string) (st : State)
         (a : TokenAnalytics.t) (Date_now : nat -> Z)
         (Math_random : nat -> float) (i : nat),
    analytics st = Some a ->
    (i < points)%nat ->
    let current := TokenDetails.price (TokenAnalytics.details a) in
    let changePct := TokenDetails.priceChange24h (TokenAnalytics.details a) in
    let start := current / (1 + changePct / 100) in
    startPrice current changePct = start /\
    Prim2SF start =
      SF64div (Prim2SF current)
              (SF64add (Prim2SF 1) (SF64div (Prim2SF changePct) (Prim2SF 100)))
    /\
    option_map PricePoint.price
      (nth_error (chartData toLocaleTimeString st Date_now Math_random) i) =
    Some (JS.Math_max
            [ (start + (current - start) * progress i)
              * (1 + (Math_random i - 0.5) * 0.02);
              0.0001 ]).
Proof.
  intros tl st a now rnd i Ha Hi current changePct start.
  split; [reflexivity|]. split.
  - unfold start.
    now rewrite FloatAxioms.div_spec, FloatAxioms.add_spec,
      FloatAxioms.div_spec.
  - rewrite (chartData_nth _ _ a) by assumption. reflexivity.
Qed.

Lemma C1_start_price_exact_witness :
  startPrice 1.25 25 = 1 /\
  option_map PricePoint.price
    (nth_error
       (chartData Sample.no_label (Sample.showing (Sample.priced 1.25 25))
          (Sample.frozen_clock 1700000000000) Sample.no_noise) 7)
  = Some 1.0760869565217392.
Proof.
  assert (Hlt : (7 < points)%nat) by (unfold points; lia).
  destruct (C1_start_price_exact Sample.no_label
              (Sample.showing (Sample.priced 1.25 25))
              (Sample.priced 1.25 25)
              (Sample.frozen_clock 1700000000000) Sample.no_noise 7
              eq_refl Hlt) as (H1 & _ & H3).
  split.
  - etransitivity; [exact H1 | reflexivity].
  - etransitivity; [exact H3 | reflexivity].
Defined.

(** C2, the defect.  Line 124 announces [// Ensure positive price], but
    nothing guards the division of line 111: when the 24h change is exactly
    -100 and the current price is positive, no error is raised and no
    fallback is applied, the start price is [Infinity], and the series
    still has 24 points, every one of them with price [NaN], so that no
    emitted price passes the test [0 < price]; this for every clock and
    every stream of random draws. *)
Theorem C2_degenerate_change_divides_silently :
  forall (toLocaleTimeString : Z -> string) (st : State)
         (a : TokenAnalytics.t) (Date_now : nat -> Z)
         (Math_random : nat -> float),
    analytics st = Some a ->
    (0 <? TokenDetails.price (TokenAnalytics.details a)) = true ->
    TokenDetails.priceChange24h (TokenAnalytics.details a) = -100 ->
    startPrice (TokenDetails.price (TokenAnalytics.details a))
               (TokenDetails.priceChange24h (TokenAnalytics.details a))
      = infinity /\
    List.length (chartData toLocaleTimeString st Date_now Math_random)
      = points /\
    Forall (fun pt => JS.isNaN (PricePoint.price pt) = true /\
                      (0 <? PricePoint.price pt) = false)
           (chartData toLocaleTimeString st Date_now Math_random).
Proof.
  intros tl st a now rnd Ha Hc Hp.
  assert (Hs : startPrice (TokenDetails.price (TokenAnalytics.details a))
                 (TokenDetails.priceChange24h (TokenAnalytics.details a))
               = infinity).
  { rewrite Hp. change (startPrice ?c (-100)) with (c / 0).
    now apply FloatFacts.div_pos_zero. }
  split; [exact Hs|]. split; [now apply (chartData_length _ _ a)|].
  apply Forall_forall. intros pt (a' & i & Ha' & Hi & ->)%chartData_In.
  assert (a' = a) by congruence. subst a'.
  cbn [PricePoint.price pointAt]. rewrite Hs.
  rewrite FloatFacts.Math_max_nan; [split; reflexivity|].
  apply FloatFacts.mul_nan_l, FloatFacts.trendPrice_infinity; trivial.
  now apply FloatFacts.progress_fraction.
Qed.

Lemma C2_degenerate_change_divides_silently_witness :
  startPrice 1.25 (-100) = infinity /\
  is_finite (startPrice 1.25 (-100)) = false /\
  map PricePoint.price
    (chartData Sample.no_label (Sample.showing (Sample.priced 1.25 (-100)))
       (Sample.frozen_clock 1700000000000) Sample.no_noise)
  = repeat nan 24 /\
  Forall (fun pt => JS.isNaN (PricePoint.price pt) = true /\
                    (0 <? PricePoint.price pt) = false)
    (chartData Sample.no_label (Sample.showing (Sample.priced 1.25 (-100)))
       (Sample.frozen_clock 1700000000000) Sample.no_noise).
Proof.
  destruct (C2_degenerate_change_divides_silently Sample.no_label
              (Sample.showing (Sample.priced 1.25 (-100)))
              (Sample.priced 1.25 (-100))
              (Sample.frozen_clock 1700000000000) Sample.no_noise
              eq_refl eq_refl eq_refl) as (H1 & _ & H3).
  split; [exact H1|]. split; [reflexivity|]. split; [reflexivity|exact H3].
Defined.

(** C3.  Whenever a record is present the generated series has exactly 24
    points; the point at index [i] carries the timestamp [24 - i] hours
    before the clock reading taken for it; and, the clock not running
    backwards, the timestamps increase strictly with the index (oldest
    first). *)
Theorem C3_series_count_and_timestamps :
  forall (toLocaleTimeString : Z -> string) (st : State)
         (a : TokenAnalytics.t) (Date_now : nat -> Z)
         (Math_random : nat -> float),
    analytics st = Some a ->
    (forall j k, (j <= k)%nat -> (Date_now j <= Date_now k)%Z) ->
    let data := chartData toLocaleTimeString st Date_now Math_random in
    List.length data = 24%nat /\
    (forall i, (i < 24)%nat ->
       option_map PricePoint.timestamp (nth_error data i) =
       Some (Date_now (2 * i)%nat - (24 - Z.of_nat i) * 3600000)%Z) /\
    (forall i j pi pj, (i < j)%nat ->
       nth_error data i = Some pi -> nth_error data j = Some pj ->
       (PricePoint.timestamp pi < PricePoint.timestamp pj)%Z).
Proof.
  intros tl st a now rnd Ha Hmono data.
  assert (Hnth : forall i, (i < 24)%nat ->
            option_map PricePoint.timestamp (nth_error data i) =
            Some (now (2 * i)%nat - (24 - Z.of_nat i) * 3600000)%Z).
  { intros i Hi. unfold data.
    rewrite (chartData_nth _ _ a) by (trivial; unfold points; lia).
    cbn [option_map PricePoint.timestamp pointAt]. unfold hoursBefore, points.
    f_equal. lia. }
  split; [exact (chartData_length _ _ a _ _ Ha)|]. split; [exact Hnth|].
  intros i j pi pj Hij Hi Hj.
  assert (Hj' : (j < 24)%nat).
  { assert (Hb : (j < List.length data)%nat)
      by (apply nth_error_Some; congruence).
    unfold data in Hb.
    now rewrite (chartData_length _ _ a) in Hb by assumption. }
  pose proof (Hnth i ltac:(lia)) as Ei. pose proof (Hnth j Hj') as Ej.
  rewrite Hi in Ei. rewrite Hj in Ej. cbn [option_map] in Ei, Ej.
  assert (Ti : PricePoint.timestamp pi =
               (now (2 * i)%nat - (24 - Z.of_nat i) * 3600000)%Z)
    by congruence.
  assert (Tj : PricePoint.timestamp pj =
               (now (2 * j)%nat - (24 - Z.of_nat j) * 3600000)%Z)
    by congruence.
  rewrite Ti, Tj.
  pose proof (Hmono (2 * i)%nat (2 * j)%nat ltac:(lia)). lia.
Qed.

Lemma C3_series_count_and_timestamps_witness :
  let data :=
    chartData Sample.no_label (Sample.showing (Sample.priced 1.25 25))
      (fun k => 1700000000000 + Z.of_nat k)%Z Sample.no_noise in
  List.length data = 24%nat /\
  (forall i, (i < 24)%nat ->
     option_map PricePoint.timestamp (nth_error data i) =
     Some (1700000000000 + Z.of_nat (2 * i) - (24 - Z.of_nat i) * 3600000)%Z) /\
  (forall i j pi pj, (i < j)%nat ->
     nth_error data i = Some pi -> nth_error data j = Some pj ->
     (PricePoint.timestamp pi < PricePoint.timestamp pj)%Z).
Proof.
  apply (C3_series_count_and_timestamps Sample.no_label
           (Sample.showing (Sample.priced 1.25 25)) (Sample.priced 1.25 25)
           (fun k => 1700000000000 + Z.of_nat k)%Z Sample.no_noise).
  - reflexivity.
  - intros j k H. lia.
Defined.

(** C4, as the code behaves.  With current price 0.00005 and no change,
    every emitted price is the floor 0.0001 itself, which is not strictly
    greater than 0.0001. *)
Lemma C4_counterexample :
  map PricePoint.price
    (chartData Sample.no_label (Sample.showing (Sample.priced 0.00005 0))
       (Sample.frozen_clock 1700000000000) Sample.no_noise)
  = repeat 0.0001 24 /\
  (0.0001 <? 0.0001) = false.
Proof. vm_compute. split; reflexivity. Qed.

(** C4 (amended).  Under any random draws and any inputs, every emitted
    price that is a number is at least the floor 0.0001, hence strictly
    positive (never zero or negative): it is the floor itself when the
    perturbed trend value is not above the floor, and the perturbed trend
    value when that is above the floor. *)
Theorem C4_price_at_least_floor :
  forall (toLocaleTimeString : Z -> string) (st : State)
         (Date_now : nat -> Z) (Math_random : nat -> float),
    Forall
      (fun pt =>
         JS.isNaN (PricePoint.price pt) = true \/
         ((0.0001 <=? PricePoint.price pt) = true /\
          (0 <? PricePoint.price pt) = true))
      (chartData toLocaleTimeString st Date_now Math_random) /\
    forall (a : TokenAnalytics.t) (i : nat),
      analytics st = Some a -> (i < points)%nat ->
      let current := TokenDetails.price (TokenAnalytics.details a) in
      let changePct :=
        TokenDetails.priceChange24h (TokenAnalytics.details a) in
      let perturbed :=
        finalPrice (trendPrice (startPrice current changePct) current
                               (progress i))
                   (volatility (Math_random i)) in
      let emitted :=
        option_map PricePoint.price
          (nth_error (chartData toLocaleTimeString st Date_now Math_random)
                     i) in
      ((perturbed <=? 0.0001) = true -> emitted = Some 0.0001) /\
      ((0.0001 <? perturbed) = true -> emitted = Some perturbed) /\
      (JS.isNaN perturbed = true -> emitted = Some nan).
Proof.
  intros tl st now rnd. split.
  - apply Forall_forall.
    intros pt (a & i & Ha & Hi & ->)%chartData_In.
    cbn [PricePoint.price pointAt].
    set (x := finalPrice _ _).
    destruct (JS.isNaN x) eqn:Hx.
    + left. now rewrite FloatFacts.Math_max_nan.
    + right.
      assert (H : (floorPrice <=? JS.Math_max [x; floorPrice]) = true)
        by (apply FloatFacts.Math_max_lower; trivial).
      split; [exact H|].
      apply (FloatFacts.leb_pos floorPrice); [reflexivity | exact H].
  - intros a i Ha Hi current changePct perturbed emitted.
    unfold emitted. rewrite (chartData_nth _ _ a) by assumption.
    cbn [option_map PricePoint.price pointAt].
    fold current changePct perturbed. repeat split.
    + intros H. f_equal. now apply FloatFacts.Math_max_below.
    + intros H. f_equal. now apply FloatFacts.Math_max_above.
    + intros H. f_equal. now apply FloatFacts.Math_max_nan.
Qed.

(** C5, as the code behaves.  For [current = 0.1], [changePct = -90] (a
    positive price and a finite change other than -100) the noise-free
    value at the last index is 0.09999999999999998, not the current price;
    with [Math.random()] returning 0.5 (zero perturbation) that is also the
    price emitted there.  For [current = 1e308], [changePct = -99] the start
    price overflows to [Infinity] and the noise-free value at the first
    index is [NaN], not the start price. *)
Lemma C5_counterexample :
  ((0 <? 0.1) = true /\ is_finite (-90) = true /\ (-90 =? -100) = false /\
   startPrice 0.1 (-90) = 1.0000000000000002 /\
   trendPrice (startPrice 0.1 (-90)) 0.1 (progress 23)
     = 0.099999999999999978 /\
   (trendPrice (startPrice 0.1 (-90)) 0.1 (progress 23) =? 0.1) = false /\
   volatility (Sample.no_noise 23) = 0 /\
   option_map PricePoint.price
     (nth_error
        (chartData Sample.no_label (Sample.showing (Sample.priced 0.1 (-90)))
           (Sample.frozen_clock 1700000000000) Sample.no_noise) 23)
     = Some 0.099999999999999978) /\
  ((0 <? 1e308) = true /\ is_finite (-99) = true /\ (-99 =? -100) = false /\
   startPrice 1e308 (-99) = infinity /\
   is_nan (trendPrice (startPrice 1e308 (-99)) 1e308 (progress 0)) = true).
Proof. vm_compute. repeat split. Qed.

(** C5 (amended).  With the perturbation disabled ([Math.random()] = 0.5)
    the noise term is zero, the perturbed value is the trend value, and the
    price emitted at each index is [Math.max(trend value, 0.0001)].  For
    every positive finite current price whose start price is positive,
    finite and within a factor of two of it ([start <= 2 * current] and
    [current <= 2 * start]), the trend value at the first index is the
    start price and at the last index is the current price, exactly.
    Without that condition the trend value at the first index, when it is
    a number, is numerically equal to the start price, and the trend value
    at the last index is [start + (current - start)] evaluated in binary64
    arithmetic. *)
Theorem C5_noise_free_endpoints :
  forall (current changePct : float),
    let start := startPrice current changePct in
    let first := trendPrice start current (progress 0) in
    let last := trendPrice start current (progress (points - 1)) in
    (volatility 0.5 = 0 /\
     forall trend, finalPrice trend (volatility 0.5) = trend) /\
    (forall (toLocaleTimeString : Z -> string) (st : State)
            (a : TokenAnalytics.t) (Date_now : nat -> Z)
            (Math_random : nat -> float) (i : nat),
       analytics st = Some a ->
       TokenDetails.price (TokenAnalytics.details a) = current ->
       TokenDetails.priceChange24h (TokenAnalytics.details a) = changePct ->
       (forall k, Math_random k = 0.5) -> (i < points)%nat ->
       option_map PricePoint.price
         (nth_error (chartData toLocaleTimeString st Date_now Math_random) i)
       = Some (JS.Math_max
                 [trendPrice start current (progress i); floorPrice])) /\
    ((0 <? current) = true -> (current <? infinity) = true ->
     (0 <? start) = true -> (start <? infinity) = true ->
     (start <=? 2 * current) = true -> (current <=? 2 * start) = true ->
     first = start /\ last = current) /\
    (is_nan first = false -> (first =? start) = true) /\
    last = start + (current - start).
Proof.
  intros current changePct start first last.
  assert (Hlast : last = start + (current - start)).
  { unfold last, trendPrice. change (progress (points - 1)) with 1.
    now rewrite FloatFacts.mul_one_r. }
  assert (Hfinal : forall trend, finalPrice trend (volatility 0.5) = trend).
  { intros trend. unfold finalPrice.
    change (1 + volatility 0.5) with 1. apply FloatFacts.mul_one_r. }
  split; [split|split; [|split; [|split]]].
  - reflexivity.
  - exact Hfinal.
  - intros tl st a now rnd i Ha Hp Hc Hrnd Hi.
    rewrite (chartData_nth _ _ a) by assumption.
    cbn [option_map PricePoint.price pointAt].
    rewrite Hp, Hc, Hrnd, Hfinal. reflexivity.
  - intros Hc0 Hci Hs0 Hsi H1 H2. split.
    + unfold first, trendPrice. change (progress 0) with 0.
      now apply Exactness.add_zero_times_diff.
    + rewrite Hlast. now apply Exactness.sub_add_back.
  - unfold first. change (progress 0) with 0.
    apply FloatFacts.trendPrice_zero.
  - exact Hlast.
Qed.

Lemma C5_noise_free_endpoints_witness :
  startPrice 1.25 25 = 1 /\
  (trendPrice (startPrice 1.25 25) 1.25 (progress 0) = startPrice 1.25 25 /\
   trendPrice (startPrice 1.25 25) 1.25 (progress (points - 1)) = 1.25) /\
  option_map PricePoint.price
    (nth_error
       (chartData Sample.no_label (Sample.showing (Sample.priced 0.00005 0))
          (Sample.frozen_clock 1700000000000) Sample.no_noise) 0)
  = Some (JS.Math_max
            [trendPrice (startPrice 0.00005 0) 0.00005 (progress 0);
             floorPrice]).
Proof.
  destruct (C5_noise_free_endpoints 1.25 25) as (_ & _ & H & _).
  destruct (C5_noise_free_endpoints 0.00005 0) as (_ & E & _).
  split; [reflexivity|]. split.
  - apply H; reflexivity.
  - apply (E Sample.no_label (Sample.showing (Sample.priced 0.00005 0))
             (Sample.priced 0.00005 0)); try reflexivity.
    unfold points. repeat constructor.
Defined.

(** C6, as the code behaves.  (1) The existing record is the native asset
    and carries a logo of its own, the fetched logo is missing: the header
    logo is the canonical URI, not the existing record's logo.  (2) The
    token is the native asset but no existing record was passed: the header
    logo is the fetched one, not the canonical URI. *)
Lemma C6_counterexample :
  (let existing :=
     Sample.holding SOL_MINT (Some "https://example.org/wallet-sol.png"%string) in
   let props := Sample.props_of SOL_MINT (Some existing) in
   let st := Sample.showing (Sample.analytics_of SOL_MINT None 150 2 0 0 0) in
   analytics_logoUri st = None /\
   existing_logoUri props = Some "https://example.org/wallet-sol.png"%string /\
   headerLogo st props = Some SOL_LOGO_URI /\
   headerLogo st props <> existing_logoUri props) /\
  (let fetched :=
     Sample.analytics_of SOL_MINT (Some "https://example.org/fetched.png"%string)
       150 2 0 0 0 in
   let props := Sample.props_of SOL_MINT None in
   tokenMint props = Some SOL_MINT /\
   headerLogo (Sample.showing fetched) props
     = Some "https://example.org/fetched.png"%string /\
   headerLogo (Sample.showing fetched) props <> Some SOL_LOGO_URI).
Proof.
  split; cbv zeta; repeat split; try reflexivity;
    vm_compute; discriminate.
Qed.

(** C6 (amended).  When the existing record's mint is the reserved
    native-asset mint, the header logo is the fixed canonical URI
    regardless of the fetched and the existing logo.  Otherwise (no
    existing record, or another mint): if the fetched logo is missing or
    empty and the existing record's logo is present and non-empty, the
    header logo is the existing record's logo. *)
Theorem C6_logo_merge :
  forall (st : State) (props : Props),
    (existing_mint props = Some SOL_MINT ->
     headerLogo st props = Some SOL_LOGO_URI) /\
    (existing_mint props <> Some SOL_MINT ->
     JS.truthy (analytics_logoUri st) = false ->
     forall logo, existing_logoUri props = Some logo ->
                  logo <> EmptyString ->
                  headerLogo st props = Some logo).
Proof.
  intros st props. unfold headerLogo. split.
  - intros ->. reflexivity.
  - intros Hm Hf logo He Hl.
    assert (Hsol : is_SOL_MINT (existing_mint props) = false).
    { destruct (existing_mint props) as [m|]; [|reflexivity]. cbn.
      apply String.eqb_neq. congruence. }
    rewrite Hsol. unfold JS.or at 2. rewrite Hf, He.
    unfold JS.or, JS.truthy.
    apply String.eqb_neq in Hl. now rewrite Hl.
Qed.

Lemma C6_logo_merge_witness :
  headerLogo
    (Sample.showing
       (Sample.analytics_of SOL_MINT
          (Some "https://example.org/fetched.png"%string) 150 2 0 0 0))
    (Sample.props_of SOL_MINT
       (Some (Sample.holding SOL_MINT
                (Some "https://example.org/wallet-sol.png"%string))))
  = Some SOL_LOGO_URI /\
  headerLogo
    (Sample.showing (Sample.priced 1 0))
    (Sample.props_of Sample.USDC_MINT
       (Some (Sample.holding Sample.USDC_MINT
                (Some "https://example.org/usdc.png"%string))))
  = Some "https://example.org/usdc.png"%string.
Proof.
  split.
  - apply (proj1 (C6_logo_merge _ _)). reflexivity.
  - apply (proj2 (C6_logo_merge _ _)).
    + discriminate.
    + reflexivity.
    + reflexivity.
    + discriminate.
Defined.

(** C7.  When the liquidity is 0 the liquidity field shows the text
    "Failed to load" and not a formatted amount; a strictly positive
    liquidity is shown as [formatCurrency(liquidity)]. *)
Theorem C7_liquidity_sentinel :
  forall (formatCurrency : float -> string) (a : TokenAnalytics.t),
    let liquidity := RealTradeData.liquidity (TokenAnalytics.tradeData a) in
    ((liquidity =? 0) = true ->
     liquidityField formatCurrency a = "Failed to load"%string) /\
    ((0 <? liquidity) = true ->
     liquidityField formatCurrency a = formatCurrency liquidity).
Proof.
  intros fc a liquidity. unfold liquidityField. fold liquidity. split.
  - intros H%FloatFacts.eqb_not_ltb. now rewrite H.
  - intros ->. reflexivity.
Qed.

Lemma C7_liquidity_sentinel_witness :
  liquidityField Sample.no_format (Sample.traded 0 10 5)
    = "Failed to load"%string /\
  liquidityField Sample.no_format (Sample.traded 125000.5 10 5)
    = Sample.no_format 125000.5.
Proof.
  split.
  - apply (proj1 (C7_liquidity_sentinel Sample.no_format
                    (Sample.traded 0 10 5))). reflexivity.
  - apply (proj2 (C7_liquidity_sentinel Sample.no_format
                    (Sample.traded 125000.5 10 5))). reflexivity.
Defined.

(** C8.  The selected time frame has no effect on the generated series:
    for any two time frames, the same record, the same clock and the same
    random draws give the same list of points. *)
Theorem C8_time_frame_irrelevant :
  forall (toLocaleTimeString : Z -> string) (st : State)
         (tf1 tf2 : TimeFrame) (Date_now : nat -> Z)
         (Math_random : nat -> float),
    chartData toLocaleTimeString (setSelectedTimeFrame tf1 st)
              Date_now Math_random =
    chartData toLocaleTimeString (setSelectedTimeFrame tf2 st)
              Date_now Math_random.
Proof. intros. reflexivity. Qed.

(** C9.  When the provider call fails, whatever the reason, the fetch ends
    with the one fixed message "Failed to load token data" in the error
    cell; the analytics cell keeps the value it had (no partial record),
    the loading flag is cleared, the other cells are untouched, and the
    error panel with its Retry button is shown.  Clicking Retry runs the
    same fetch again: if the provider then answers, the record is stored
    and the error is cleared. *)
Theorem C9_provider_failure :
  forall (props : Props) (getTokenAnalytics : Provider) (st : State)
         (mint reason : string),
    tokenMint props = Some mint ->
    mint <> EmptyString ->
    getTokenAnalytics mint (existingTokenData props) = JS.Rejected reason ->
    let st' := fetchTokenAnalytics props getTokenAnalytics st in
    st' = setLoading false
            (setError (Some "Failed to load token data"%string) st) /\
    analytics st' = analytics st /\
    error st' = Some "Failed to load token data"%string /\
    content st' = ErrorPanel "Failed to load token data"%string /\
    forall (getTokenAnalytics' : Provider) (data : TokenAnalytics.t),
      getTokenAnalytics' mint (existingTokenData props) = JS.Fulfilled data ->
      let st'' := onRetryClick props getTokenAnalytics' st' in
      analytics st'' = Some data /\ error st'' = None /\
      loading st'' = false /\ content st'' = Report data.
Proof.
  intros props provider st mint reason Hm Hne Hrej st'.
  assert (Ht : JS.truthy (tokenMint props) = true).
  { rewrite Hm. cbn. apply String.eqb_neq in Hne. now rewrite Hne. }
  assert (E : st' = setLoading false
                (setError (Some "Failed to load token data"%string) st)).
  { unfold st', fetchTokenAnalytics. rewrite Ht, Hm, Hrej. reflexivity. }
  split; [exact E|]. rewrite E.
  split; [reflexivity|]. split; [reflexivity|]. split; [reflexivity|].
  intros provider' data Hok st''.
  unfold st'', onRetryClick, fetchTokenAnalytics.
  rewrite Ht, Hm, Hok. repeat split.
Qed.

Lemma C9_provider_failure_witness :
  let props := Sample.props_of Sample.USDC_MINT None in
  let st := Sample.showing (Sample.priced 1.25 25) in
  let st' := fetchTokenAnalytics props Sample.failing st in
  analytics st' = Some (Sample.priced 1.25 25) /\
  error st' = Some "Failed to load token data"%string /\
  content st' = ErrorPanel "Failed to load token data"%string /\
  analytics
    (onRetryClick props (Sample.serving (Sample.priced 1 0)) st')
    = Some (Sample.priced 1 0).
Proof.
  cbv zeta.
  destruct (C9_provider_failure (Sample.props_of Sample.USDC_MINT None)
              Sample.failing (Sample.showing (Sample.priced 1.25 25))
              Sample.USDC_MINT "timeout"%string eq_refl)
    as (_ & Ha & He & Hc & Hretry).
  - discriminate.
  - reflexivity.
  - split; [exact Ha|]. split; [exact He|]. split; [exact Hc|].
    exact (proj1 (Hretry (Sample.serving (Sample.priced 1 0))
                    (Sample.priced 1 0) eq_refl)).
Defined.

(** C10.  The "Unique Wallets" figure is computed from the trade counts,
    not supplied by the provider: whenever the buy count or the sell count
    is positive the field shows
    [max(floor(0.3 * (buys24h + sells24h)), 50)], which, the counts being
    non-negative, is at least 50; when both counts are zero the field
    shows "Failed to load". *)
Theorem C10_unique_wallets_synthesized :
  forall (toLocaleString : float -> string) (a : TokenAnalytics.t),
    let buys24h := RealTradeData.buys24h (TokenAnalytics.tradeData a) in
    let sells24h := RealTradeData.sells24h (TokenAnalytics.tradeData a) in
    let shown :=
      JS.Math_max [JS.Math_floor (0.3 * (buys24h + sells24h)); 50] in
    (((0 <? buys24h) = true \/ (0 <? sells24h) = true) ->
     uniqueWalletsField toLocaleString a = toLocaleString shown) /\
    ((0 <=? buys24h) = true -> (0 <=? sells24h) = true ->
     (50 <=? shown) = true) /\
    ((buys24h =? 0) = true -> (sells24h =? 0) = true ->
     uniqueWalletsField toLocaleString a = "Failed to load"%string).
Proof.
  intros tls a b s shown. unfold uniqueWalletsField, uniqueWallets.
  fold b s. rewrite (FloatFacts.mul_comm (b + s) 0.3). fold shown.
  split; [|split].
  - intros Hpos.
    assert (Hor : (0 <? b) || (0 <? s) = true)
      by (apply orb_true_iff; exact Hpos).
    now rewrite Hor.
  - intros Hb Hs.
    apply FloatFacts.Math_max_lower; try reflexivity.
    apply FloatFacts.Math_floor_not_nan.
    rewrite (FloatFacts.mul_comm 0.3).
    apply FloatFacts.mul_finite_not_nan.
    + now apply FloatFacts.add_nonneg_not_nan.
    + now exists false, 5404319552844595%positive, (-54)%Z.
  - intros Hb0%FloatFacts.eqb_not_ltb Hs0%FloatFacts.eqb_not_ltb.
    now rewrite Hb0, Hs0.
Qed.

Lemma C10_unique_wallets_synthesized_witness :
  (uniqueWalletsField Sample.no_format (Sample.traded 0 100 80)
     = Sample.no_format 54 /\
   uniqueWallets (Sample.traded 0 100 80) = 54 /\
   uniqueWallets (Sample.traded 0 3 0) = 50 /\
   (50 <=? JS.Math_max [JS.Math_floor (0.3 * (100 + 80)); 50]) = true) /\
  uniqueWalletsField Sample.no_format (Sample.traded 0 0 0)
    = "Failed to load"%string.
Proof.
  split.
  - destruct (C10_unique_wallets_synthesized Sample.no_format
                (Sample.traded 0 100 80)) as (H1 & H2 & _).
    split; [exact (H1 (or_introl eq_refl))|].
    split; [reflexivity|]. split; [reflexivity|].
    exact (H2 eq_refl eq_refl).
  - destruct (C10_unique_wallets_synthesized Sample.no_format
                (Sample.traded 0 0 0)) as (_ & _ & H).
    apply H; reflexivity.
Defined.

(* ================================================================== *)
(** * Further properties: header text *)
(* ================================================================== *)

(** X1.  The header symbol is the upper-cased first non-empty string
    among the fetched symbol, the existing record's symbol and the
    [tokenSymbol] prop, in this order, and "ASSET" when none of them is
    available; an empty string counts as missing, so the string that is
    upper-cased is never empty. *)
Theorem X1_header_symbol_fallback :
  forall (toUpperCase : string -> string) (st : State) (props : Props),
    exists chosen,
      headerSymbol toUpperCase st props = toUpperCase chosen /\
      chosen <> EmptyString /\
      (forall s, analytics_symbol st = Some s -> s <> EmptyString ->
                 chosen = s) /\
      (JS.truthy (analytics_symbol st) = false ->
       forall s, existing_symbol props = Some s -> s <> EmptyString ->
                 chosen = s) /\
      (JS.truthy (analytics_symbol st) = false ->
       JS.truthy (existing_symbol props) = false ->
       forall s, tokenSymbol props = Some s -> s <> EmptyString ->
                 chosen = s) /\
      (JS.truthy (analytics_symbol st) = false ->
       JS.truthy (existing_symbol props) = false ->
       JS.truthy (tokenSymbol props) = false ->
       chosen = "ASSET"%string).
Proof.
  intros up st props. unfold headerSymbol.
  set (chosen := JS.or_default _ _). exists chosen.
  split; [reflexivity|].
  assert (Hor : forall a s, a = Some s -> s <> EmptyString ->
                            JS.truthy a = true).
  { intros a s -> Hs. cbn. apply String.eqb_neq in Hs. now rewrite Hs. }
  assert (Hdef : forall a s d, a = Some s -> s <> EmptyString ->
                               JS.or_default a d = s).
  { intros a s d -> Hs. cbn. apply String.eqb_neq in Hs. now rewrite Hs. }
  assert (Hnone : forall a d, JS.truthy a = false -> JS.or_default a d = d).
  { intros [s|] d; cbn; [|reflexivity].
    destruct (String.eqb s EmptyString); [reflexivity|discriminate]. }
  split; [|split; [|split; [|split]]].
  - unfold chosen, JS.or_default.
    destruct (JS.or _ _) as [s|]; [|discriminate].
    destruct (String.eqb_spec s EmptyString); [discriminate|assumption].
  - intros s E Hs. unfold chosen, JS.or.
    rewrite (Hor _ s E Hs). cbn [JS.truthy]. rewrite (Hor _ s E Hs).
    now apply Hdef.
  - intros F s E Hs. unfold chosen, JS.or. rewrite F.
    rewrite (Hor _ s E Hs). now apply Hdef.
  - intros F1 F2 s E Hs. unfold chosen, JS.or. rewrite F1, F2.
    now apply Hdef.
  - intros F1 F2 F3. unfold chosen, JS.or. rewrite F1, F2.
    now apply Hnone.
Qed.

(** X2.  The header name is the fetched name when that is non-empty,
    otherwise the existing record's name when that is non-empty, otherwise
    "Asset"; it is never empty, and the [tokenSymbol] prop plays no part
    in it. *)
Theorem X2_header_name_fallback :
  forall (st : State) (props : Props),
    headerName st props <> EmptyString /\
    (forall s, analytics_name st = Some s -> s <> EmptyString ->
               headerName st props = s) /\
    (JS.truthy (analytics_name st) = false ->
     forall s, existing_name props = Some s -> s <> EmptyString ->
               headerName st props = s) /\
    (JS.truthy (analytics_name st) = false ->
     JS.truthy (existing_name props) = false ->
     headerName st props = "Asset"%string) /\
    (forall hint,
       headerName st
         {| isOpen := isOpen props; tokenMint := tokenMint props;
            tokenSymbol := hint;
            existingTokenData := existingTokenData props |}
       = headerName st props).
Proof.
  intros st props. unfold headerName.
  assert (Hor : forall a s, a = Some s -> s <> EmptyString ->
                            JS.truthy a = true).
  { intros a s -> Hs. cbn. apply String.eqb_neq in Hs. now rewrite Hs. }
  assert (Hdef : forall a s d, a = Some s -> s <> EmptyString ->
                               JS.or_default a d = s).
  { intros a s d -> Hs. cbn. apply String.eqb_neq in Hs. now rewrite Hs. }
  assert (Hnone : forall a d, JS.truthy a = false -> JS.or_default a d = d).
  { intros [s|] d; cbn; [|reflexivity].
    destruct (String.eqb s EmptyString); [reflexivity|discriminate]. }
  split; [|split; [|split; [|split]]].
  - unfold JS.or_default.
    destruct (JS.or _ _) as [s|]; [|discriminate].
    destruct (String.eqb_spec s EmptyString); [discriminate|assumption].
  - intros s E Hs. unfold JS.or. rewrite (Hor _ s E Hs). now apply Hdef.
  - intros F s E Hs. unfold JS.or. rewrite F. now apply Hdef.
  - intros F1 F2. unfold JS.or. rewrite F1. now apply Hnone.
  - reflexivity.
Qed.

(* ================================================================== *)
(** * Further properties: fetching and what is displayed *)
(* ================================================================== *)

(** X3.  Without a token mint ([null] or the empty string) the fetch does
    nothing: no cell changes, and the provider's behaviour is irrelevant
    (it is not consulted). *)
Theorem X3_fetch_without_mint :
  forall (props : Props) (getTokenAnalytics : Provider) (st : State),
    JS.truthy (tokenMint props) = false ->
    fetchTokenAnalytics props getTokenAnalytics st = st.
Proof.
  intros props provider st H. unfold fetchTokenAnalytics. now rewrite H.
Qed.

Lemma X3_fetch_without_mint_witness :
  fetchTokenAnalytics
    {| isOpen := true; tokenMint := Some EmptyString; tokenSymbol := None;
       existingTokenData := None |}
    (Sample.serving (Sample.priced 1 0))
    (Sample.showing (Sample.priced 1.25 25))
  = Sample.showing (Sample.priced 1.25 25).
Proof. apply X3_fetch_without_mint. reflexivity. Defined.

(** A completed call is a start followed at once by its own
    settlement. *)
Lemma fetch_uninterrupted (props : Props) (getTokenAnalytics : Provider)
    (st : State) (mint : string) :
  tokenMint props = Some mint -> mint <> EmptyString ->
  fetchTokenAnalytics props getTokenAnalytics st =
  run [Started; Settled (getTokenAnalytics mint (existingTokenData props))]
      st.
Proof.
  intros Hm Hne. unfold fetchTokenAnalytics.
  assert (Ht : JS.truthy (tokenMint props) = true).
  { rewrite Hm. cbn. apply String.eqb_neq in Hne. now rewrite Hne. }
  now rewrite Ht, Hm.
Qed.

Lemma run_app (events events' : list Event) (st : State) :
  run (events ++ events') st = run events' (run events st).
Proof. apply fold_left_app. Qed.

Lemma run_snoc (events : list Event) (ev : Event) (st : State) :
  run (events ++ [ev]) st = step (run events st) ev.
Proof. now rewrite run_app. Qed.

Lemma pending_starts (k n : nat) (events : list Event) :
  pending n (repeat Started k ++ events) = pending (k + n) events.
Proof.
  revert n. induction k as [|k IH]; intros n; cbn [repeat app pending].
  - reflexivity.
  - rewrite IH. f_equal. lia.
Qed.

(** Events other than settlements leave the loading flag of a loading
    state up. *)
Lemma loading_kept (events : list Event) (st : State) :
  Forall (fun ev => forall outcome, ev <> Settled outcome) events ->
  loading st = true -> loading (run events st) = true.
Proof.
  intros H. revert st. induction H as [|ev evs Hev _ IH]; intros st Hl.
  - exact Hl.
  - cbn [run fold_left]. apply IH.
    destruct ev as [|outcome|tf|b]; cbn; trivial.
    now contradiction (Hev outcome).
Qed.

(** X4.  The spinner belongs to no fetch in particular.  When a fetch
    starts, the spinner is displayed at once, whatever was displayed
    before: the error is cleared, and an earlier record stays in its cell
    (and keeps feeding the chart data) but is not shown.  The spinner then
    stays through every update that is not a settlement (further starts,
    time-frame clicks, animation changes), and it is gone as soon as any
    pending fetch settles, fulfilled or rejected, also when other fetches
    are still pending: the loading flag is a boolean, not a count of the
    pending fetches. *)
Theorem X4_spinner_until_first_settlement :
  forall (toLocaleTimeString : Z -> string) (st : State)
         (Date_now : nat -> Z) (Math_random : nat -> float),
    (content (fetch_begin st) = Spinner /\
     error (fetch_begin st) = None /\
     analytics (fetch_begin st) = analytics st /\
     chartData toLocaleTimeString (fetch_begin st) Date_now Math_random =
     chartData toLocaleTimeString st Date_now Math_random) /\
    (forall events,
       Forall (fun ev => forall outcome, ev <> Settled outcome) events ->
       content (run (Started :: events) st) = Spinner) /\
    (forall events outcome,
       loading (run (events ++ [Settled outcome]) st) = false /\
       content (run (events ++ [Settled outcome]) st) <> Spinner) /\
    (forall k outcome,
       pending 0 (repeat Started (S (S k)) ++ [Settled outcome])
         = Some (S k) /\
       content (run (repeat Started (S (S k)) ++ [Settled outcome]) st)
         <> Spinner).
Proof.
  intros tl st now rnd.
  assert (Hsettle : forall events outcome,
            loading (run (events ++ [Settled outcome]) st) = false /\
            content (run (events ++ [Settled outcome]) st) <> Spinner).
  { intros events outcome. rewrite run_snoc.
    assert (Hl : loading (step (run events st) (Settled outcome)) = false)
      by now destruct outcome.
    split; [exact Hl|]. unfold content. rewrite Hl.
    destruct (JS.truthy _); [destruct (error _)|destruct (analytics _)];
      discriminate. }
  split; [repeat split|]. split; [|split; [exact Hsettle|]].
  - intros events Hev. unfold content.
    change (run (Started :: events) st) with (run events (fetch_begin st)).
    now rewrite (loading_kept events (fetch_begin st) Hev).
  - intros k outcome. split; [|apply Hsettle].
    rewrite pending_starts, Nat.add_0_r. reflexivity.
Qed.

(** The state a completed fetch leaves behind. *)
Lemma fetch_fulfilled (props : Props) (getTokenAnalytics : Provider)
    (st : State) (mint : string) (data : TokenAnalytics.t) :
  tokenMint props = Some mint -> mint <> EmptyString ->
  getTokenAnalytics mint (existingTokenData props) = JS.Fulfilled data ->
  fetchTokenAnalytics props getTokenAnalytics st =
  {| isAnimating := isAnimating st; analytics := Some data;
     loading := false; error := None;
     selectedTimeFrame := selectedTimeFrame st |}.
Proof.
  intros Hm Hne Hok. unfold fetchTokenAnalytics.
  assert (Ht : JS.truthy (tokenMint props) = true).
  { rewrite Hm. cbn. apply String.eqb_neq in Hne. now rewrite Hne. }
  rewrite Ht, Hm, Hok. reflexivity.
Qed.

Lemma fetch_rejected (props : Props) (getTokenAnalytics : Provider)
    (st : State) (mint reason : string) :
  tokenMint props = Some mint -> mint <> EmptyString ->
  getTokenAnalytics mint (existingTokenData props) = JS.Rejected reason ->
  fetchTokenAnalytics props getTokenAnalytics st =
  {| isAnimating := isAnimating st; analytics := analytics st;
     loading := false; error := Some "Failed to load token data"%string;
     selectedTimeFrame := selectedTimeFrame st |}.
Proof.
  intros Hm Hne Hrej. unfold fetchTokenAnalytics.
  assert (Ht : JS.truthy (tokenMint props) = true).
  { rewrite Hm. cbn. apply String.eqb_neq in Hne. now rewrite Hne. }
  rewrite Ht, Hm, Hrej. reflexivity.
Qed.

(** Updates that do not write the [error] cell leave it as it is. *)
Lemma error_kept (events : list Event) (st : State) :
  Forall (fun ev => writes_error ev = false) events ->
  error (run events st) = error st.
Proof.
  intros H. revert st. induction H as [|ev evs Hev _ IH]; intros st.
  - reflexivity.
  - cbn [run fold_left]. fold (run evs (step st ev)). rewrite IH.
    destruct ev as [|[data|reason]|tf|b]; cbn in Hev |- *;
      try reflexivity; discriminate.
Qed.

(** X5.  A fetch that fulfils stores its record and takes the spinner
    away, but it does not touch the error cell, and fetches are neither
    cancelled nor told apart.  So its record is displayed when the error
    cell is empty ([null] or the empty string) at that moment, and the
    error panel with the stored message otherwise.  The cell is empty when
    no fetch was rejected since the most recent start (in particular when
    the fetch settles right after its own start); when an overlapping
    fetch was rejected after the most recent start, the error panel stays
    up and the fulfilled record is stored but hidden. *)
Theorem X5_fulfilled_fetch_and_overlaps :
  forall (events : list Event) (st : State) (data : TokenAnalytics.t),
    let before := run events st in
    let after := run (events ++ [Settled (JS.Fulfilled data)]) st in
    (analytics after = Some data /\ loading after = false /\
     error after = error before) /\
    (JS.truthy (error before) = false -> content after = Report data) /\
    (forall message,
       error before = Some message -> message <> EmptyString ->
       content after = ErrorPanel message) /\
    (forall earlier later,
       events = earlier ++ Started :: later ->
       Forall (fun ev => writes_error ev = false) later ->
       content after = Report data) /\
    (forall earlier reason later,
       events = earlier ++ Settled (JS.Rejected reason) :: later ->
       Forall (fun ev => writes_error ev = false) later ->
       content after = ErrorPanel "Failed to load token data"%string).
Proof.
  intros events st data before after.
  assert (Hstep : after = fetch_settle (JS.Fulfilled data) before)
    by apply run_snoc.
  assert (Hshow : JS.truthy (error before) = false ->
                  content after = Report data).
  { intros He. rewrite Hstep. unfold content. cbn. now rewrite He. }
  split; [rewrite Hstep; repeat split|]. split; [exact Hshow|].
  split; [|split].
  - intros message He Hne. rewrite Hstep. unfold content. cbn.
    rewrite He. cbn. apply String.eqb_neq in Hne. now rewrite Hne.
  - intros earlier later -> Hlater. apply Hshow. unfold before.
    rewrite run_app. cbn [run fold_left].
    fold (run later (step (run earlier st) Started)).
    now rewrite error_kept.
  - intros earlier reason later -> Hlater. rewrite Hstep.
    assert (He : error before = Some "Failed to load token data"%string).
    { unfold before. rewrite run_app. cbn [run fold_left].
      fold (run later (step (run earlier st) (Settled (JS.Rejected reason)))).
      now rewrite error_kept. }
    unfold content. cbn. now rewrite He.
Qed.

Lemma X5_fulfilled_fetch_and_overlaps_witness :
  let data := Sample.priced 1.25 25 in
  let overlapping :=
    [Started; Started; Settled (JS.Rejected "timeout"%string);
     Settled (JS.Fulfilled data)] in
  let sequential :=
    [Started; Settled (JS.Rejected "timeout"%string); Started;
     Settled (JS.Fulfilled data)] in
  pending 0 overlapping = Some 0%nat /\
  pending 0 sequential = Some 0%nat /\
  content (run overlapping initialState)
    = ErrorPanel "Failed to load token data"%string /\
  analytics (run overlapping initialState) = Some data /\
  content (run sequential initialState) = Report data.
Proof.
  cbv zeta. split; [reflexivity|]. split; [reflexivity|].
  destruct (X5_fulfilled_fetch_and_overlaps
              [Started; Started; Settled (JS.Rejected "timeout"%string)]
              initialState (Sample.priced 1.25 25))
    as ((Ha & _) & _ & _ & _ & Herr).
  destruct (X5_fulfilled_fetch_and_overlaps
              [Started; Settled (JS.Rejected "timeout"%string); Started]
              initialState (Sample.priced 1.25 25))
    as (_ & _ & _ & Hok & _).
  split; [|split].
  - apply (Herr [Started; Started] "timeout"%string []);
      [reflexivity|constructor].
  - exact Ha.
  - apply (Hok [Started; Settled (JS.Rejected "timeout"%string)] []);
      [reflexivity|constructor].
Defined.

(** X6.  A refresh that fails after a record was loaded hides that record
    behind the error panel but keeps it: the chart data computed from the
    state is the same as before the refresh (same clock, same draws), so
    the stale series is still there when the panel goes away. *)
Theorem X6_failed_refresh_keeps_series :
  forall (toLocaleTimeString : Z -> string) (props : Props)
         (getTokenAnalytics : Provider) (st : State) (mint reason : string)
         (shown : TokenAnalytics.t)
         (Date_now : nat -> Z) (Math_random : nat -> float),
    tokenMint props = Some mint -> mint <> EmptyString ->
    getTokenAnalytics mint (existingTokenData props) = JS.Rejected reason ->
    content st = Report shown ->
    let st' := fetchTokenAnalytics props getTokenAnalytics st in
    content st' = ErrorPanel "Failed to load token data"%string /\
    analytics st' = Some shown /\
    chartData toLocaleTimeString st' Date_now Math_random =
    chartData toLocaleTimeString st Date_now Math_random /\
    List.length (chartData toLocaleTimeString st' Date_now Math_random)
      = points.
Proof.
  intros tl props provider st mint reason shown now rnd Hm Hne Hrej Hshown st'.
  assert (Ha : analytics st = Some shown).
  { unfold content in Hshown.
    destruct (loading st); [discriminate|].
    destruct (JS.truthy (error st)).
    - destruct (error st); discriminate.
    - destruct (analytics st); [congruence|discriminate]. }
  unfold st'. rewrite (fetch_rejected props provider st mint reason)
    by assumption.
  split; [reflexivity|]. split; [exact Ha|]. split; [reflexivity|].
  apply (chartData_length _ _ shown). exact Ha.
Qed.

Lemma X6_failed_refresh_keeps_series_witness :
  let props := Sample.props_of Sample.USDC_MINT None in
  let st := Sample.showing (Sample.priced 1.25 25) in
  let st' := fetchTokenAnalytics props Sample.failing st in
  content st' = ErrorPanel "Failed to load token data"%string /\
  chartData Sample.no_label st' (Sample.frozen_clock 1700000000000)
            Sample.no_noise =
  chartData Sample.no_label st (Sample.frozen_clock 1700000000000)
            Sample.no_noise.
Proof.
  cbv zeta.
  destruct (X6_failed_refresh_keeps_series Sample.no_label
              (Sample.props_of Sample.USDC_MINT None) Sample.failing
              (Sample.showing (Sample.priced 1.25 25))
              Sample.USDC_MINT "timeout"%string (Sample.priced 1.25 25)
              (Sample.frozen_clock 1700000000000) Sample.no_noise eq_refl)
    as (H1 & _ & H3 & _).
  - discriminate.
  - reflexivity.
  - reflexivity.
  - split; [exact H1 | exact H3].
Defined.

(* ================================================================== *)
(** * Further properties: the generated series *)
(* ================================================================== *)

(** X7.  The series is a function of the record's price and 24h change
    alone (besides the clock and the draws): two states whose records
    agree on these two numbers give the same points, whatever their other
    fields (identity, trade data, holders, security) and cells are. *)
Theorem X7_series_depends_on_price_and_change :
  forall (toLocaleTimeString : Z -> string) (st1 st2 : State)
         (a1 a2 : TokenAnalytics.t)
         (Date_now : nat -> Z) (Math_random : nat -> float),
    analytics st1 = Some a1 -> analytics st2 = Some a2 ->
    TokenDetails.price (TokenAnalytics.details a1)
      = TokenDetails.price (TokenAnalytics.details a2) ->
    TokenDetails.priceChange24h (TokenAnalytics.details a1)
      = TokenDetails.priceChange24h (TokenAnalytics.details a2) ->
    chartData toLocaleTimeString st1 Date_now Math_random =
    chartData toLocaleTimeString st2 Date_now Math_random.
Proof.
  intros tl st1 st2 a1 a2 now rnd H1 H2 Hp Hc.
  rewrite (chartData_pointAt _ _ a1), (chartData_pointAt _ _ a2)
    by assumption.
  now rewrite Hp, Hc.
Qed.

Lemma X7_series_depends_on_price_and_change_witness :
  chartData Sample.no_label (Sample.showing (Sample.priced 1.25 25))
    (Sample.frozen_clock 1700000000000) Sample.no_noise =
  chartData Sample.no_label
    (setLoading true
       (setSelectedTimeFrame TF_1W
          (Sample.showing
             (Sample.analytics_of SOL_MINT
                (Some "https://example.org/logo.png"%string)
                1.25 25 5000 12 7))))
    (Sample.frozen_clock 1700000000000) Sample.no_noise.
Proof.
  apply (X7_series_depends_on_price_and_change Sample.no_label _ _
           (Sample.priced 1.25 25)
           (Sample.analytics_of SOL_MINT
              (Some "https://example.org/logo.png"%string)
              1.25 25 5000 12 7));
    reflexivity.
Defined.

(** X8.  When the clock does not advance while the series is generated
    (every reading is [now]), the points are exactly one hour apart, the
    oldest lies 24 hours and the newest one hour before [now] (no point
    carries [now] itself), and each label is the formatted timestamp of its
    own point. *)
Theorem X8_hourly_grid :
  forall (toLocaleTimeString : Z -> string) (st : State)
         (a : TokenAnalytics.t) (now : Z) (Math_random : nat -> float),
    analytics st = Some a ->
    let data := chartData toLocaleTimeString st (fun _ => now) Math_random in
    option_map PricePoint.timestamp (hd_error data)
      = Some (now - 24 * 3600000)%Z /\
    option_map PricePoint.timestamp (nth_error data 23)
      = Some (now - 3600000)%Z /\
    (forall i p q, nth_error data i = Some p ->
                   nth_error data (S i) = Some q ->
                   PricePoint.timestamp q
                     = (PricePoint.timestamp p + 3600000)%Z) /\
    Forall (fun p => (PricePoint.timestamp p < now)%Z /\
                     PricePoint.time p
                       = toLocaleTimeString (PricePoint.timestamp p))
           data.
Proof.
  intros tl st a now rnd Ha data.
  assert (Hnth : forall i, (i < points)%nat ->
            nth_error data i =
            Some (pointAt tl (TokenDetails.price (TokenAnalytics.details a))
                    (TokenDetails.priceChange24h (TokenAnalytics.details a))
                    (fun _ => now) rnd i))
    by (intros i Hi; now apply chartData_nth).
  assert (Hlen : List.length data = points)
    by now apply (chartData_length _ _ a).
  split; [|split; [|split]].
  - replace (hd_error data) with (nth_error data 0)
      by (now destruct data).
    rewrite Hnth by (unfold points; lia). reflexivity.
  - rewrite Hnth by (unfold points; lia). reflexivity.
  - intros i p q Hp Hq.
    assert (Hi : (S i < points)%nat).
    { rewrite <- Hlen. apply nth_error_Some. congruence. }
    rewrite Hnth in Hp, Hq by lia.
    injection Hp as <-. injection Hq as <-.
    cbn [PricePoint.timestamp pointAt]. unfold hoursBefore, points. lia.
  - apply Forall_forall. intros p (a' & i & _ & Hi & ->)%chartData_In.
    cbn [PricePoint.timestamp PricePoint.time pointAt].
    split; [|reflexivity]. unfold hoursBefore, points in *. lia.
Qed.

Lemma X8_hourly_grid_witness :
  map PricePoint.timestamp
    (chartData Sample.no_label (Sample.showing (Sample.priced 1.25 25))
       (fun _ => 1700000000000%Z) Sample.no_noise)
  = map (fun k => (1700000000000 - 86400000 + 3600000 * Z.of_nat k)%Z)
        (seq 0 24) /\
  option_map PricePoint.timestamp
    (nth_error
       (chartData Sample.no_label (Sample.showing (Sample.priced 1.25 25))
          (fun _ => 1700000000000%Z) Sample.no_noise) 23)
  = Some (1700000000000 - 3600000)%Z.
Proof.
  split; [reflexivity|].
  exact (proj1 (proj2 (X8_hourly_grid Sample.no_label
                         (Sample.showing (Sample.priced 1.25 25))
                         (Sample.priced 1.25 25) 1700000000000%Z
                         Sample.no_noise eq_refl))).
Defined.

(** ** NaN propagates through the arithmetic *)

Module NaN.

Lemma add_l (x y : float) : is_nan x = true -> is_nan (x + y) = true.
Proof.
  rewrite !FloatFacts.is_nan_spec, FloatAxioms.add_spec. now intros ->.
Qed.

Lemma div_l (x y : float) : is_nan x = true -> is_nan (x / y) = true.
Proof.
  rewrite !FloatFacts.is_nan_spec, FloatAxioms.div_spec. now intros ->.
Qed.

Lemma add_r (x y : float) : is_nan y = true -> is_nan (x + y) = true.
Proof.
  rewrite !FloatFacts.is_nan_spec, FloatAxioms.add_spec. intros ->.
  now destruct (Prim2SF x).
Qed.

Lemma div_r (x y : float) : is_nan y = true -> is_nan (x / y) = true.
Proof.
  rewrite !FloatFacts.is_nan_spec, FloatAxioms.div_spec. intros ->.
  now destruct (Prim2SF x).
Qed.

End NaN.

(** X9.  Nothing guards the arithmetic against a price or a 24h change
    that is not a number: if either is NaN, the series still has its 24
    points and every one of them carries the price NaN (the floor does not
    apply), whatever the draws are. *)
Theorem X9_nan_input_gives_nan_series :
  forall (toLocaleTimeString : Z -> string) (st : State)
         (a : TokenAnalytics.t) (Date_now : nat -> Z)
         (Math_random : nat -> float),
    analytics st = Some a ->
    is_nan (TokenDetails.price (TokenAnalytics.details a)) = true \/
    is_nan (TokenDetails.priceChange24h (TokenAnalytics.details a)) = true ->
    List.length (chartData toLocaleTimeString st Date_now Math_random)
      = 24%nat /\
    Forall (fun pt => JS.isNaN (PricePoint.price pt) = true)
           (chartData toLocaleTimeString st Date_now Math_random).
Proof.
  intros tl st a now rnd Ha Hnan.
  split; [exact (chartData_length _ _ a _ _ Ha)|].
  apply Forall_forall. intros pt (a' & i & Ha' & Hi & ->)%chartData_In.
  assert (a' = a) by congruence. subst a'.
  cbn [PricePoint.price pointAt].
  rewrite FloatFacts.Math_max_nan; [reflexivity|].
  apply FloatFacts.mul_nan_l. unfold trendPrice. apply NaN.add_l.
  unfold startPrice. destruct Hnan as [H|H].
  - now apply NaN.div_l.
  - apply NaN.div_r, NaN.add_r. now apply NaN.div_l.
Qed.

Lemma X9_nan_input_gives_nan_series_witness :
  map PricePoint.price
    (chartData Sample.no_label (Sample.showing (Sample.priced nan 25))
       (Sample.frozen_clock 1700000000000) Sample.no_noise)
  = repeat nan 24 /\
  Forall (fun pt => JS.isNaN (PricePoint.price pt) = true)
    (chartData Sample.no_label (Sample.showing (Sample.priced 1.25 nan))
       (Sample.frozen_clock 1700000000000) Sample.no_noise).
Proof.
  split; [reflexivity|].
  apply (X9_nan_input_gives_nan_series Sample.no_label
           (Sample.showing (Sample.priced 1.25 nan))
           (Sample.priced 1.25 nan)).
  - reflexivity.
  - right. reflexivity.
Defined.

(* ================================================================== *)
(** * Further properties: top holders *)
(* ================================================================== *)

(** X10.  The holder list is rendered as the "N/A" placeholder exactly when
    it is empty; otherwise it is rendered as rows for its first five
    entries at most, one row per holder, in the order of the list (no
    sorting, no filtering), keyed by the holder's address. *)
Theorem X10_top_holder_rows :
  forall (shortenAddress : string -> string) (toFixed2 : float -> string)
         (a : TokenAnalytics.t),
    let holders := TokenAnalytics.topHolders a in
    match topHolderRows shortenAddress toFixed2 a with
    | None => holders = []
    | Some rows =>
        holders <> [] /\
        List.length rows = Nat.min 5 (List.length holders) /\
        (1 <= List.length rows <= 5)%nat /\
        map HolderRow.key rows = firstn 5 (map TopHolder.address holders) /\
        forall i row, nth_error rows i = Some row ->
          exists holder,
            nth_error holders i = Some holder /\
            row = holderRow shortenAddress toFixed2 holder
    end.
Proof.
  intros sa tf a holders. unfold topHolderRows. fold holders.
  clearbody holders.
  destruct (Nat.ltb_spec 0 (List.length holders)) as [Hpos|Hzero].
  - assert (Hne : holders <> [])
      by (intros ->; cbn in Hpos; lia).
    assert (Hlen : List.length (map (holderRow sa tf) (firstn 5 holders))
                   = Nat.min 5 (List.length holders))
      by now rewrite length_map, length_firstn.
    split; [exact Hne|]. split; [exact Hlen|]. split; [lia|]. split.
    + rewrite map_map. cbn [HolderRow.key holderRow].
      now rewrite firstn_map.
    + intros i row Hrow. rewrite nth_error_map in Hrow.
      destruct (nth_error (firstn 5 holders) i) as [holder|] eqn:Hn;
        [|discriminate].
      exists holder. split; [|now injection Hrow as <-].
      assert (Hi : (i < 5)%nat).
      { assert (i < List.length (firstn 5 holders))%nat
          by (apply nth_error_Some; congruence).
        rewrite length_firstn in *. lia. }
      now rewrite nth_error_firstn, (proj2 (Nat.ltb_lt i 5) Hi) in Hn.
  - destruct holders; [reflexivity | cbn in Hzero; lia].
Qed.

(* ================================================================== *)
(** * Order and scaling of positive finite numbers *)
(* ================================================================== *)

Module Order.

Local Open Scope Z_scope.

(** Comparing two positive finite numbers is comparing their mantissas
    aligned on a common exponent. *)
Lemma SFcompare_value (m1 m2 : positive) (e1 e2 ez : Z) :
  bounded prec emax m1 e1 = true -> bounded prec emax m2 e2 = true ->
  ez <= e1 -> ez <= e2 ->
  SFcompare (S754_finite false m1 e1) (S754_finite false m2 e2)
  = Some (Zpos m1 * 2 ^ (e1 - ez) ?= Zpos m2 * 2 ^ (e2 - ez)).
Proof.
  assert (Hlt : forall a b ea eb,
            bounded prec emax a ea = true -> bounded prec emax b eb = true ->
            ez <= ea -> ea < eb ->
            Zpos a * 2 ^ (ea - ez) < Zpos b * 2 ^ (eb - ez)).
  { intros a b ea eb Ha Hb La Lab.
    pose proof (Exactness.bounded_inv a ea Ha) as [Hca Hea].
    pose proof (Exactness.bounded_inv b eb Hb) as [Hcb Heb].
    pose proof (Exactness.mantissa_lt a ea Ha) as [Hma _].
    pose proof (Exactness.digits2_le_pow b) as Hge.
    assert (Hd : Zpos (digits2_pos b) = 53) by lia.
    rewrite Hd in Hge. change (53 - 1) with 52 in Hge.
    assert (Hp : 2 * 2 ^ (ea - ez) <= 2 ^ (eb - ez)).
    { rewrite <- Z.pow_succ_r by lia. apply Z.pow_le_mono_r; lia. }
    assert (0 < 2 ^ (ea - ez)) by (apply Z.pow_pos_nonneg; lia).
    change (2 ^ 53) with (2 * 2 ^ 52) in Hma. nia. }
  intros Hb1 Hb2 L1 L2. cbn [SFcompare]. f_equal.
  destruct (Z.compare_spec e1 e2) as [E|E|E].
  - subst e2. rewrite Pos.compare_cont_spec. cbn [Pos.switch_Eq].
    assert (Hp : 0 < 2 ^ (e1 - ez)) by (apply Z.pow_pos_nonneg; lia).
    rewrite <- Zmult_compare_compat_r by lia.
    change (Zpos m1 ?= Zpos m2) with (m1 ?= m2)%positive.
    now destruct (m1 ?= m2)%positive.
  - symmetry. apply Z.compare_lt_iff. now apply Hlt.
  - symmetry. apply Z.compare_gt_iff. now apply Hlt.
Qed.

(** Rounding keeps the sign it is given. *)
Lemma binary_round_aux_sign (sx : bool) (mx ex : Z) (lx : location) :
  0 <= mx ->
  binary_round_aux prec emax sx mx ex lx = S754_zero sx \/
  binary_round_aux prec emax sx mx ex lx = S754_infinity sx \/
  exists m e, binary_round_aux prec emax sx mx ex lx = S754_finite sx m e.
Proof.
  intros H. unfold binary_round_aux.
  pose proof (FloatFacts.shr_fexp_nonneg mx ex lx H) as H1.
  destruct (shr_fexp prec emax mx ex lx) as [mrs' e']. cbn [fst] in H1.
  pose proof (FloatFacts.shr_fexp_nonneg _ e' loc_Exact
                (FloatFacts.round_nearest_even_nonneg _
                   (loc_of_shr_record mrs') H1)) as H2.
  destruct (shr_fexp prec emax _ e' loc_Exact) as [mrs'' e''].
  cbn [fst] in H2.
  destruct (shr_m mrs'') as [|q|q]; [now left | | lia].
  destruct (e'' <=? emax - prec); eauto.
Qed.

(** Four times a positive finite number: [Infinity], or a finite number
    whose value is four times as large. *)
Lemma SFmul_four (m : positive) (e : Z) :
  bounded prec emax m e = true ->
  (SF64mul (S754_finite false m e)
           (S754_finite false 4503599627370496 (-50))
     = S754_infinity false /\ 969 <= e) \/
  exists m4 e4,
    SF64mul (S754_finite false m e)
            (S754_finite false 4503599627370496 (-50))
      = S754_finite false m4 e4 /\
    bounded prec emax m4 e4 = true /\ e <= e4 /\
    Zpos m4 * 2 ^ (e4 - e) = 4 * Zpos m.
Proof.
  intros Hb. pose proof (Exactness.bounded_inv m e Hb) as [Hc He].
  rewrite FloatFacts.SFmul_comm. cbn [SF64mul SFmul xorb].
  assert (Hd : Zpos (digits2_pos m) = 53 \/ Zpos (digits2_pos m) = 52 \/
               Zpos (digits2_pos m) <= 51) by lia.
  destruct Hd as [Hd|[Hd|Hd]].
  - change (Zpos (4503599627370496 * m)) with (Zpos (Pos.iter xO m 52)).
    replace (-50 + e) with (e + 2 - 52) by lia.
    rewrite Exactness.binary_round_aux_shifted
      by (unfold canonical_mantissa; rewrite Exactness.fexp_eq;
          apply Z.eqb_eq; lia).
    destruct (Z.leb_spec (e + 2) 971) as [Hle|Hgt]; [right|left; split; [reflexivity|lia]].
    exists m, (e + 2). repeat split; try lia.
    + apply Exactness.bounded_intro; lia.
    + replace (e + 2 - e) with 2 by lia. lia.
  - change (Zpos (4503599627370496 * m))
      with (Zpos (Pos.iter xO (xO m) 51)).
    replace (-50 + e) with (e + 1 - 51) by lia.
    rewrite Exactness.binary_round_aux_shifted
      by (unfold canonical_mantissa; rewrite Exactness.fexp_eq;
          apply Z.eqb_eq; cbn [digits2_pos]; lia).
    destruct (Z.leb_spec (e + 1) 971) as [Hle|Hgt]; [right|left; split; [reflexivity|lia]].
    exists (xO m), (e + 1). repeat split; try lia.
    + apply Exactness.bounded_intro; cbn [digits2_pos]; lia.
    + replace (e + 1 - e) with 1 by lia. lia.
  - change (Zpos (4503599627370496 * m))
      with (Zpos (Pos.iter xO (xO (xO m)) 50)).
    replace (-50 + e) with (e - 50) by lia.
    rewrite Exactness.binary_round_aux_shifted
      by (unfold canonical_mantissa; rewrite Exactness.fexp_eq;
          apply Z.eqb_eq; cbn [digits2_pos]; lia).
    apply Z.leb_le in He. rewrite He. right.
    exists (xO (xO m)), e. repeat split; try lia.
    + apply Exactness.bounded_intro; cbn [digits2_pos]; lia.
    + rewrite Z.sub_diag, Z.pow_0_r. lia.
Qed.

(** [100 <= 4 * p] exactly when [25 <= p]. *)
Lemma leb_100_mul4 (p : float) :
  (100 <=? p * 4)%float = (25 <=? p)%float.
Proof.
  rewrite !FloatAxioms.leb_spec, FloatAxioms.mul_spec.
  change (Prim2SF 4) with (S754_finite false 4503599627370496 (-50)).
  change (Prim2SF 100) with (S754_finite false 7036874417766400 (-46)).
  change (Prim2SF 25) with (S754_finite false 7036874417766400 (-48)).
  pose proof (Prim2SF_valid p) as Hv.
  destruct (Prim2SF p) as [s|s| |s m e]; try destruct s; try reflexivity.
  { cbn [SF64mul SFmul xorb].
    destruct (binary_round_aux_sign true (Zpos (m * 4503599627370496))
                (e + -50) loc_Exact ltac:(lia))
      as [->|[->|(m' & e' & ->)]]; reflexivity. }
  cbn [valid_binary] in Hv.
  pose proof (Exactness.mantissa_lt m e Hv) as [_ Re].
  assert (H25 : bounded prec emax 7036874417766400 (-48) = true)
    by reflexivity.
  assert (H100 : bounded prec emax 7036874417766400 (-46) = true)
    by reflexivity.
  destruct (SFmul_four m e Hv)
    as [(-> & Hbig)|(m4 & e4 & -> & Hb4 & Le & Hval)].
  - cbn [SFleb SFcompare].
    assert (E : (-48 ?= e) = Lt) by (apply Z.compare_lt_iff; lia).
    now rewrite E.
  - unfold SFleb.
    rewrite (SFcompare_value _ _ _ _ (-1074) H25 Hv) by lia.
    rewrite (SFcompare_value _ _ _ _ (-1074) H100 Hb4) by lia.
    rewrite <- (Exactness.pow_split e4 e (-1074)), Z.mul_assoc, Hval by lia.
    replace (7036874417766400 * 2 ^ (-46 - -1074))
      with (4 * (7036874417766400 * 2 ^ (-48 - -1074))).
    + rewrite <- Z.mul_assoc, <- Zmult_compare_compat_l by lia.
      reflexivity.
    + change (-46 - -1074) with (2 + (-48 - -1074)).
      rewrite Z.pow_add_r by lia. lia.
Qed.

End Order.

(** ** [Math.min] of two arguments *)

Module Min.

Lemma leb_false_ltb (x y : float) :
  is_nan x = false -> is_nan y = false ->
  (y <=? x) = false -> (x <? y) = true.
Proof.
  rewrite !FloatFacts.is_nan_false, FloatAxioms.ltb_spec, FloatAxioms.leb_spec.
  unfold SFltb, SFleb. intros Hx Hy.
  rewrite (FloatFacts.SFcompare_antisym (Prim2SF x) (Prim2SF y)).
  destruct (SFcompare (Prim2SF x) (Prim2SF y)) as [[]|] eqn:E; cbn;
    try congruence.
  apply FloatFacts.SFcompare_None in E. tauto.
Qed.

Lemma ltb_not_leb (x y : float) : (x <? y) = true -> (y <=? x) = false.
Proof.
  rewrite FloatAxioms.ltb_spec, FloatAxioms.leb_spec. unfold SFltb, SFleb.
  rewrite (FloatFacts.SFcompare_antisym (Prim2SF x) (Prim2SF y)).
  destruct (SFcompare (Prim2SF x) (Prim2SF y)) as [[]|]; cbn; congruence.
Qed.

Lemma ltb_not_nan_l (x y : float) : (x <? y) = true -> is_nan x = false.
Proof.
  rewrite FloatAxioms.ltb_spec. unfold SFltb. intros H.
  apply FloatFacts.is_nan_false. intros E. rewrite E in H. discriminate.
Qed.

Lemma leb_not_nan_r (x y : float) : (x <=? y) = true -> is_nan y = false.
Proof.
  rewrite FloatAxioms.leb_spec. unfold SFleb. intros H.
  apply FloatFacts.is_nan_false. intros E. rewrite E in H.
  destruct (Prim2SF x); discriminate.
Qed.

Lemma Math_min_nan (x e : float) :
  JS.isNaN x = true -> JS.Math_min [x; e] = nan.
Proof. intros H. unfold JS.Math_min. cbn [JS.min_loop]. now rewrite H. Qed.

Lemma Math_min_pair (x e : float) :
  JS.isNaN x = false -> JS.isNaN e = false -> JS.is_neg_zero e = false ->
  JS.Math_min [x; e] =
  let lowest := if x <? infinity then x else infinity in
  if e <? lowest then e else lowest.
Proof.
  intros Hx He Hz. unfold JS.Math_min. cbn [JS.min_loop].
  rewrite Hx, He, Hz. cbn [andb].
  replace (JS.is_pos_zero infinity) with false by reflexivity.
  now rewrite andb_false_r.
Qed.

(** [Math.min(x, e)] is [e] when [e <= x], for a non-zero finite [e]. *)
Lemma Math_min_above (x e : float) :
  JS.isNaN e = false -> JS.is_neg_zero e = false ->
  (e <? infinity) = true -> (e =? 0) = false ->
  (e <=? x) = true -> JS.Math_min [x; e] = e.
Proof.
  intros He Hz Hinf Hnz Hle.
  pose proof (leb_not_nan_r e x Hle) as Hx.
  rewrite Math_min_pair by assumption. cbv zeta.
  destruct (x <? infinity); [|now rewrite Hinf].
  destruct (e <? x) eqn:Hlt; [reflexivity|].
  apply Prim2SF_inj.
  rewrite FloatAxioms.leb_spec in Hle. rewrite FloatAxioms.ltb_spec in Hlt.
  rewrite FloatAxioms.eqb_spec in Hnz. unfold SFleb, SFltb, SFeqb in *.
  destruct (SFcompare (Prim2SF e) (Prim2SF x)) as [[]|] eqn:E;
    try discriminate.
  apply FloatFacts.SFcompare_Eq in E.
  destruct E as [E|(sx & sy & E & _)]; [now symmetry|].
  rewrite E in Hnz. change (Prim2SF 0) with (S754_zero false) in Hnz.
  discriminate.
Qed.

(** [Math.min(x, e)] is [x] when [x < e]. *)
Lemma Math_min_below (x e : float) :
  JS.isNaN e = false -> JS.is_neg_zero e = false ->
  (x <? e) = true -> JS.Math_min [x; e] = x.
Proof.
  intros He Hz Hlt.
  pose proof (ltb_not_nan_l x e Hlt) as Hx.
  rewrite Math_min_pair by assumption. cbv zeta.
  assert (Hfin : (x <? infinity) = true).
  { rewrite FloatAxioms.ltb_spec in Hlt |- *. unfold SFltb in *.
    change (Prim2SF infinity) with (S754_infinity false).
    destruct (Prim2SF x) as [sx|sx| |sx mx ex],
             (Prim2SF e) as [se|se| |se me ee];
      try destruct sx; try destruct se; cbn in *; congruence. }
  rewrite Hfin.
  assert (Hnlt : (e <? x) = false).
  { rewrite FloatAxioms.ltb_spec in Hlt |- *. unfold SFltb in *.
    rewrite (FloatFacts.SFcompare_antisym (Prim2SF x) (Prim2SF e)).
    destruct (SFcompare (Prim2SF x) (Prim2SF e)) as [[]|]; cbn;
      congruence. }
  now rewrite Hnlt.
Qed.

End Min.

(** X11.  The bar of a holder row is four times the holder's percentage
    wide and saturates at 100: for a percentage below 25 the width is
    [4 * percentage] (below 100), from 25 on it is exactly 100, so it
    never exceeds 100; a percentage that is NaN gives the width NaN. *)
Theorem X11_holder_bar_width :
  forall (shortenAddress : string -> string) (toFixed2 : float -> string)
         (holder : TopHolder.t),
    let percentage := TopHolder.percentage holder in
    let width :=
      HolderRow.width (holderRow shortenAddress toFixed2 holder) in
    ((percentage <? 25) = true ->
     width = percentage * 4 /\ (width <? 100) = true) /\
    ((25 <=? percentage) = true -> width = 100) /\
    (is_nan percentage = false -> (width <=? 100) = true) /\
    (is_nan percentage = true -> is_nan width = true).
Proof.
  intros sa tf holder p width. unfold width. cbn [HolderRow.width holderRow].
  fold p. clear width.
  assert (Hlow : (p <? 25) = true ->
                 JS.Math_min [p * 4; 100] = p * 4 /\ (p * 4 <? 100) = true).
  { intros Hlt.
    assert (H4 : (p * 4 <? 100) = true).
    { apply Min.leb_false_ltb; [|reflexivity|].
      - apply FloatFacts.mul_finite_not_nan.
        + now apply (Min.ltb_not_nan_l p 25).
        + now exists false, 4503599627370496%positive, (-50)%Z.
      - rewrite Order.leb_100_mul4. now apply Min.ltb_not_leb. }
    split; [|exact H4]. now apply Min.Math_min_below. }
  assert (Hhigh : (25 <=? p) = true -> JS.Math_min [p * 4; 100] = 100).
  { intros Hle. apply Min.Math_min_above; try reflexivity.
    now rewrite Order.leb_100_mul4. }
  split; [|split; [exact Hhigh|split]].
  - intros H. destruct (Hlow H) as [-> H4]. now split.
  - intros Hnan. destruct (25 <=? p) eqn:E.
    + now rewrite Hhigh.
    + assert (Hlt : (p <? 25) = true)
        by (apply Min.leb_false_ltb; trivial).
      destruct (Hlow Hlt) as [-> H4]. now apply FloatFacts.ltb_leb.
  - intros Hnan. rewrite Min.Math_min_nan; [reflexivity|].
    now apply FloatFacts.mul_nan_l.
Qed.

Lemma X11_holder_bar_width_witness :
  HolderRow.width
    (holderRow (fun s => s) Sample.no_format
       {| TopHolder.address := "9xQeWvG816bUx9EPjHmaT23yvVM2ZWbrrpZb9PusVFin"%string;
          TopHolder.percentage := 12.5 |}) = 50 /\
  HolderRow.width
    (holderRow (fun s => s) Sample.no_format
       {| TopHolder.address := "9xQeWvG816bUx9EPjHmaT23yvVM2ZWbrrpZb9PusVFin"%string;
          TopHolder.percentage := 61.25 |}) = 100.
Proof.
  split.
  - etransitivity;
      [apply (proj1 (X11_holder_bar_width (fun s => s) Sample.no_format _));
       reflexivity
      | reflexivity].
  - apply (proj1 (proj2 (X11_holder_bar_width (fun s => s)
                           Sample.no_format _))).
    reflexivity.
Defined.

(* ================================================================== *)
(** * Further properties: info and performance fields *)
(* ================================================================== *)

(** X12.  The trade fields hang together: "Total Trades" and "Unique
    Wallets" show a figure under exactly the same condition (a positive
    buy or sell count) and the placeholder otherwise; a "Buys" or "Sells"
    field that shows anything but the placeholder forces both of them to
    show a figure; and when one count is positive and the other is zero,
    "Total Trades" shows the positive count alone while the other count's
    own field shows the placeholder. *)
Theorem X12_trade_fields_consistent :
  forall (toLocaleString : float -> string) (a : TokenAnalytics.t),
    let buys24h := RealTradeData.buys24h (TokenAnalytics.tradeData a) in
    let sells24h := RealTradeData.sells24h (TokenAnalytics.tradeData a) in
    (totalTradesField toLocaleString a
       = toLocaleString (buys24h + sells24h) /\
     uniqueWalletsField toLocaleString a
       = toLocaleString (uniqueWallets a)
     \/
     totalTradesField toLocaleString a = "Failed to load"%string /\
     uniqueWalletsField toLocaleString a = "Failed to load"%string /\
     buysField toLocaleString a = "Failed to load"%string /\
     sellsField toLocaleString a = "Failed to load"%string) /\
    (buysField toLocaleString a <> "Failed to load"%string \/
     sellsField toLocaleString a <> "Failed to load"%string ->
     totalTradesField toLocaleString a
       = toLocaleString (buys24h + sells24h) /\
     uniqueWalletsField toLocaleString a
       = toLocaleString (uniqueWallets a)) /\
    ((0 <? buys24h) = true -> sells24h = 0 ->
     totalTradesField toLocaleString a = toLocaleString buys24h /\
     sellsField toLocaleString a = "Failed to load"%string).
Proof.
  intros tls a b s.
  unfold totalTradesField, uniqueWalletsField, buysField, sellsField.
  fold b s. split; [|split].
  - destruct (0 <? b), (0 <? s); cbn [orb];
      [left|left|left|right]; repeat split.
  - intros H. destruct (0 <? b), (0 <? s); cbn [orb]; auto.
    destruct H as [H|H]; now contradiction H.
  - intros Hb Hs. rewrite Hb, Hs. cbn [orb].
    change (0 <? 0) with false. cbv iota. split; [|reflexivity].
    f_equal. apply Prim2SF_inj. rewrite FloatAxioms.add_spec.
    change (Prim2SF 0) with (S754_zero false).
    rewrite FloatAxioms.ltb_spec in Hb. unfold SFltb in Hb.
    change (Prim2SF 0) with (S754_zero false) in Hb.
    destruct (Prim2SF b) as [sb|sb| |sb mb eb]; try destruct sb;
      cbn in Hb |- *; try discriminate; reflexivity.
Qed.

(** X13.  "Circulating Supply" shows a figure only when "Market Cap" shows
    one and the price is positive, so the quotient market cap / price is
    never formed with a zero, negative or NaN price; with a market cap but
    a price of zero, the market cap is shown and the supply is not. *)
Theorem X13_circulating_supply_guarded :
  forall (formatCurrency formatLargeNumber : float -> string)
         (a : TokenAnalytics.t),
    let marketCap := TokenDetails.marketCap (TokenAnalytics.details a) in
    let price := TokenDetails.price (TokenAnalytics.details a) in
    (circulatingSupplyField formatLargeNumber a <> "Failed to load"%string ->
     (0 <? price) = true /\
     marketCapField formatCurrency a = formatCurrency marketCap /\
     circulatingSupplyField formatLargeNumber a
       = formatLargeNumber (marketCap / price)) /\
    ((0 <? marketCap) = true -> (price =? 0) = true ->
     marketCapField formatCurrency a = formatCurrency marketCap /\
     circulatingSupplyField formatLargeNumber a = "Failed to load"%string) /\
    ((marketCap =? 0) = true \/ is_nan marketCap = true ->
     marketCapField formatCurrency a = "Failed to load"%string /\
     circulatingSupplyField formatLargeNumber a = "Failed to load"%string).
Proof.
  intros fc fl a cap price.
  unfold circulatingSupplyField, marketCapField. fold cap price.
  split; [|split].
  - destruct (JS.truthy_number cap), (0 <? price); cbn [andb];
      try (intros H; now contradiction H).
    intros _. repeat split.
  - intros Hcap Hp.
    assert (Ht : JS.truthy_number cap = true).
    { unfold JS.truthy_number, JS.isNaN.
      assert (Hn : is_nan cap = false).
      { apply FloatFacts.is_nan_false. intros E.
        rewrite FloatAxioms.ltb_spec, E in Hcap. discriminate. }
      assert (Hz : (cap =? 0) = false).
      { destruct (cap =? 0) eqn:E; [|reflexivity].
        apply FloatFacts.eqb_not_ltb in E. congruence. }
      now rewrite Hn, Hz. }
    rewrite Ht, (FloatFacts.eqb_not_ltb _ _ Hp). now split.
  - intros H.
    assert (Ht : JS.truthy_number cap = false).
    { unfold JS.truthy_number, JS.isNaN.
      destruct H as [-> | ->]; [now rewrite orb_true_r | reflexivity]. }
    rewrite Ht. now split.
Qed.

(* ================================================================== *)
(** * Dividing by one, subtracting a number from itself *)
(* ================================================================== *)

Module Unit.

Local Open Scope Z_scope.

Lemma SFdiv_one (s : bool) (m : positive) (e : Z) :
  bounded prec emax m e = true ->
  SF64div (S754_finite s m e) (S754_finite false 4503599627370496 (-52))
  = S754_finite s m e.
Proof.
  intros Hb. pose proof (Exactness.bounded_inv m e Hb) as [Hc He].
  cbn [SF64div SFdiv]. rewrite xorb_false_r.
  unfold SFdiv_core_binary. cbn [Zdigits2 digits2_pos Pos.succ].
  rewrite Exactness.fexp_eq.
  assert (Hdiv : forall k, Z.div_eucl (Zpos m * 2 ^ k * 4503599627370496)
                             4503599627370496 = (Zpos m * 2 ^ k, 0)).
  { intros k.
    pose proof (Z.div_eucl_eq (Zpos m * 2 ^ k * 4503599627370496)
                  4503599627370496 ltac:(lia)) as Heq.
    pose proof (Z.mod_pos_bound (Zpos m * 2 ^ k * 4503599627370496)
                  4503599627370496 ltac:(lia)) as Hbd.
    unfold Z.modulo in Hbd.
    destruct (Z.div_eucl _ _) as [q r]. f_equal; nia. }
  destruct (Z.eq_dec e (-1074)) as [E|E].
  - (* exponent at the bottom: the quotient keeps it *)
    assert (E' : Z.min (Z.max (Zpos (digits2_pos m) + e - (53 + -52) - 53)
                              (-1074)) (e - -52) = e) by lia.
    rewrite E'. replace (e - -52 - e) with 52 by lia.
    rewrite Z.shiftl_mul_pow2 by lia.
    change (2 ^ 52) with 4503599627370496.
    replace (Zpos m * 4503599627370496)
      with (Zpos m * 2 ^ 0 * 4503599627370496) by (rewrite Z.pow_0_r; lia).
    rewrite Hdiv, Z.pow_0_r, Z.mul_1_r.
    change (new_location 4503599627370496 0) with loc_Exact.
    now apply Exactness.binary_round_aux_canonical.
  - (* normal number: one more bit, one exponent lower *)
    assert (E' : Z.min (Z.max (Zpos (digits2_pos m) + e - (53 + -52) - 53)
                              (-1074)) (e - -52) = e - 1) by lia.
    rewrite E'. replace (e - -52 - (e - 1)) with 53 by lia.
    rewrite Z.shiftl_mul_pow2 by lia.
    change (2 ^ 53) with (2 ^ 1 * 4503599627370496).
    rewrite Z.mul_assoc, Hdiv.
    change (new_location 4503599627370496 0) with loc_Exact.
    change (Zpos m * 2 ^ 1) with (Zpos m * 2).
    replace (Zpos m * 2) with (Zpos (Pos.iter xO m 1))
      by (cbn [Pos.iter]; lia).
    rewrite Exactness.binary_round_aux_shifted
      by (unfold canonical_mantissa; rewrite Exactness.fexp_eq;
          apply Z.eqb_eq; lia).
    apply Z.leb_le in He. now rewrite He.
Qed.

Lemma div_one (x : float) :
  (0 <? x)%float = true -> (x <? infinity)%float = true ->
  (x / 1)%float = x.
Proof.
  intros H0 Hinf.
  destruct (Exactness.positive_finite x H0 Hinf) as (m & e & E & Hb).
  apply Prim2SF_inj. rewrite FloatAxioms.div_spec, E.
  now apply SFdiv_one.
Qed.

(** For a positive finite [c]: [c + (c - c) * f] is [c], when [f] is [+0]
    or a positive finite number. *)
Lemma flat_trend (c f : float) :
  (0 <? c)%float = true -> (c <? infinity)%float = true ->
  Shape.fraction (Prim2SF f) ->
  trendPrice c c f = c.
Proof.
  intros H0 Hinf Hf.
  destruct (Exactness.positive_finite c H0 Hinf) as (m & e & E & Hb).
  apply Prim2SF_inj. unfold trendPrice.
  rewrite FloatAxioms.add_spec, FloatAxioms.mul_spec, FloatAxioms.sub_spec, E.
  assert (Hsub : SF64sub (S754_finite false m e) (S754_finite false m e)
                 = S754_zero false).
  { cbn [SF64sub SFsub cond_Zopp]. now rewrite Z.sub_diag. }
  rewrite Hsub.
  destruct (Prim2SF f) as [s|s| |s mf ef]; try destruct s;
    cbn in Hf; try contradiction; reflexivity.
Qed.

End Unit.

(** X14.  With a 24h change of zero and a positive finite current price
    the reconstruction has nothing to interpolate: the start price is the
    current price, the noise-free value is the current price at every one
    of the 24 indices, and each emitted price is
    [Math.max(current * (1 + noise), 0.0001)]; with the perturbation
    disabled every emitted price is [Math.max(current, 0.0001)]. *)
Theorem X14_zero_change_is_flat :
  forall (toLocaleTimeString : Z -> string) (st : State)
         (a : TokenAnalytics.t) (Date_now : nat -> Z)
         (Math_random : nat -> float),
    analytics st = Some a ->
    let current := TokenDetails.price (TokenAnalytics.details a) in
    let changePct := TokenDetails.priceChange24h (TokenAnalytics.details a) in
    (changePct =? 0) = true ->
    (0 <? current) = true -> (current <? infinity) = true ->
    startPrice current changePct = current /\
    (forall i, (i < points)%nat ->
       trendPrice (startPrice current changePct) current (progress i)
         = current) /\
    (forall i, (i < points)%nat ->
       option_map PricePoint.price
         (nth_error (chartData toLocaleTimeString st Date_now Math_random) i)
       = Some (JS.Math_max
                 [current * (1 + (Math_random i - 0.5) * 0.02); 0.0001])) /\
    ((forall i, Math_random i = 0.5) ->
     map PricePoint.price
       (chartData toLocaleTimeString st Date_now Math_random)
     = repeat (JS.Math_max [current; 0.0001]) points).
Proof.
  intros tl st a now rnd Ha current changePct Hz H0 Hinf.
  assert (Hq : 1 + changePct / 100 = 1).
  { apply Prim2SF_inj.
    rewrite FloatAxioms.add_spec, FloatAxioms.div_spec.
    rewrite FloatAxioms.eqb_spec in Hz. unfold SFeqb in Hz.
    change (Prim2SF 0) with (S754_zero false) in Hz.
    destruct (Prim2SF changePct) as [s|s| |s m e]; try destruct s;
      cbn in Hz; try discriminate; reflexivity. }
  assert (Hs : startPrice current changePct = current).
  { unfold startPrice. rewrite Hq. now apply Unit.div_one. }
  assert (Ht : forall i, (i < points)%nat ->
             trendPrice (startPrice current changePct) current (progress i)
             = current).
  { intros i Hi. rewrite Hs. apply Unit.flat_trend; trivial.
    now apply FloatFacts.progress_fraction. }
  assert (Hp : forall i, (i < points)%nat ->
             option_map PricePoint.price
               (nth_error (chartData tl st now rnd) i)
             = Some (JS.Math_max
                       [current * (1 + (rnd i - 0.5) * 0.02); 0.0001])).
  { intros i Hi. rewrite (chartData_nth _ _ a) by assumption.
    cbn [option_map PricePoint.price pointAt].
    fold current changePct. now rewrite Ht. }
  split; [exact Hs|]. split; [exact Ht|]. split; [exact Hp|].
  intros Hrnd. rewrite (chartData_pointAt _ _ a) by assumption.
  rewrite map_map. cbn [PricePoint.price pointAt]. fold current changePct.
  replace (repeat (JS.Math_max [current; 0.0001]) points)
    with (map (fun _ : nat => JS.Math_max [current; 0.0001])
              (seq 0 points))
    by (now rewrite map_const, length_seq).
  apply map_ext_in. intros i Hi%in_seq.
  rewrite Ht by lia. rewrite Hrnd.
  unfold finalPrice. change (1 + volatility 0.5) with 1.
  now rewrite FloatFacts.mul_one_r.
Qed.

Lemma X14_zero_change_is_flat_witness :
  startPrice 150 0 = 150 /\
  map PricePoint.price
    (chartData Sample.no_label (Sample.showing (Sample.priced 150 0))
       (Sample.frozen_clock 1700000000000) Sample.no_noise)
  = repeat 150 24.
Proof.
  destruct (X14_zero_change_is_flat Sample.no_label
              (Sample.showing (Sample.priced 150 0)) (Sample.priced 150 0)
              (Sample.frozen_clock 1700000000000) Sample.no_noise
              eq_refl eq_refl eq_refl eq_refl) as (H1 & _ & _ & H4).
  split; [exact H1|].
  etransitivity; [apply H4; reflexivity | reflexivity].
Defined.

(* ================================================================== *)
(** * Magnitudes: operations on small numbers do not overflow *)
(* ================================================================== *)

Module Magnitude.

Local Open Scope Z_scope.

Lemma below_mono (k k' : Z) (x : spec_float) :
  k <= k' -> Size.below k x -> Size.below k' x.
Proof. destruct x; cbn; trivial; lia. Qed.

Lemma Zdigits2_lt_pow (m : Z) : 0 <= m -> m < 2 ^ Zdigits2 m.
Proof.
  destruct m as [|p|p]; cbn [Zdigits2]; intros H; [cbn; lia | | lia].
  apply Exactness.digits2_lt_pow.
Qed.

Lemma Zdigits2_le (m k : Z) : 0 <= m -> 0 <= k -> m < 2 ^ k -> Zdigits2 m <= k.
Proof.
  destruct m as [|p|p]; cbn [Zdigits2]; intros H Hk Hlt; [lia | | lia].
  now apply Exactness.digits2_le.
Qed.

Lemma shr_1_half (r : shr_record) :
  0 <= shr_m r -> shr_m (shr_1 r) = shr_m r / 2.
Proof.
  destruct r as [[|[p|p|]|p] b s]; cbn [shr_1 shr_m]; intros H; try lia.
  - reflexivity.
  - rewrite Pos2Z.inj_xI. apply Z.div_unique with 1; lia.
  - rewrite Pos2Z.inj_xO. apply Z.div_unique with 0; lia.
  - reflexivity.
Qed.

Lemma shr_iter (n : positive) (r : shr_record) :
  0 <= shr_m r ->
  shr_m (Pos.iter shr_1 r n) = shr_m r / 2 ^ Zpos n /\
  0 <= shr_m (Pos.iter shr_1 r n).
Proof.
  intros H. induction n as [|n [IH1 IH2]] using Pos.peano_ind.
  - cbn [Pos.iter]. rewrite shr_1_half by assumption.
    split; [reflexivity|]. apply Z.div_pos; lia.
  - rewrite Pos.iter_succ, shr_1_half, IH1 by assumption.
    rewrite Pos2Z.inj_succ, Z.pow_succ_r by lia.
    rewrite Z.div_div by (try apply Z.pow_pos_nonneg; lia).
    rewrite (Z.mul_comm 2). split; [reflexivity|].
    apply Z.div_pos; [lia|]. apply Z.mul_pos_pos; [|lia].
    apply Z.pow_pos_nonneg; lia.
Qed.

(** What [shr_fexp] returns for a non-negative mantissa. *)
Lemma shr_fexp_spec (m e : Z) (l : location) :
  0 <= m ->
  let f := fexp prec emax (Zdigits2 m + e) in
  let r := fst (shr_fexp prec emax m e l) in
  let e' := snd (shr_fexp prec emax m e l) in
  0 <= shr_m r /\
  (f <= e /\ e' = e /\ shr_m r = m \/
   e < f /\ e' = f /\ shr_m r = m / 2 ^ (f - e)).
Proof.
  intros H f r e'. unfold r, e', shr_fexp. fold f.
  assert (Hm : shr_m (shr_record_of_loc m l) = m)
    by (destruct l as [|[]]; reflexivity).
  unfold shr. destruct (f - e) as [|n|n] eqn:E; cbn [fst snd].
  - rewrite Hm. split; [lia|]. left. repeat split; lia.
  - rewrite Exactness.iter_pos_iter.
    destruct (shr_iter n (shr_record_of_loc m l)) as [H1 H2]; [lia|].
    rewrite Hm in H1. split; [exact H2|]. right. repeat split; lia.
  - rewrite Hm. split; [lia|]. left. repeat split; lia.
Qed.


Lemma div_pow_bound (m a n : Z) :
  0 <= m -> 0 <= a -> 0 <= n -> m < 2 ^ a ->
  0 <= m / 2 ^ n < 2 ^ Z.max 0 (a - n).
Proof.
  intros Hm Ha Hn Hlt.
  assert (Hp : 0 < 2 ^ n) by (apply Z.pow_pos_nonneg; lia).
  split; [apply Z.div_pos; lia|].
  destruct (Z.le_gt_cases n a) as [Hle|Hgt].
  - replace (Z.max 0 (a - n)) with (a - n) by lia.
    apply Z.div_lt_upper_bound; [exact Hp|].
    rewrite <- Z.pow_add_r by lia. now replace (n + (a - n)) with a by lia.
  - replace (Z.max 0 (a - n)) with 0 by lia.
    rewrite Z.div_small; [cbn; lia|]. split; [exact Hm|].
    eapply Z.lt_le_trans; [exact Hlt|]. apply Z.pow_le_mono_r; lia.
Qed.

Lemma shr_fexp_below (m e a : Z) (l : location) :
  0 <= m -> 0 <= a -> m < 2 ^ a ->
  let r := fst (shr_fexp prec emax m e l) in
  let e' := snd (shr_fexp prec emax m e l) in
  e' = Z.max e (fexp prec emax (Zdigits2 m + e)) /\
  0 <= shr_m r < 2 ^ Z.max 0 (a - (e' - e)).
Proof.
  intros Hm Ha Hlt r e'.
  destruct (shr_fexp_spec m e l Hm) as [H0 [(Hf & He & Hr)|(Hf & He & Hr)]];
    fold r e' in H0, He, Hr.
  - split; [lia|]. rewrite Hr, He, Z.sub_diag, Z.sub_0_r.
    replace (Z.max 0 a) with a by lia. lia.
  - split; [lia|]. rewrite Hr, He. apply div_pow_bound; lia.
Qed.

(** Rounding a mantissa of magnitude at most [2^k], [k <= 1023], gives a
    zero or a finite number of magnitude at most [2^(k+1)]: it does not
    overflow. *)
Lemma binary_round_aux_below (sx : bool) (mx ex k : Z) (lx : location) :
  0 <= mx -> ex <= 971 -> Zdigits2 mx + ex <= k -> -1074 <= k <= 1023 ->
  Size.below (k + 1) (binary_round_aux prec emax sx mx ex lx).
Proof.
  intros Hm Hex Hk HK. unfold binary_round_aux.
  assert (Hd : 0 <= Zdigits2 mx) by (destruct mx; cbn; lia).
  pose proof (shr_fexp_below mx ex (Zdigits2 mx) lx Hm Hd
                (Zdigits2_lt_pow mx Hm)) as [E1 B1].
  rewrite Exactness.fexp_eq in E1.
  destruct (shr_fexp prec emax mx ex lx) as [mrs' e'].
  cbn [fst snd] in E1, B1.
  set (g1 := Z.max 0 (Zdigits2 mx - (e' - ex))) in *.
  set (m1 := round_nearest_even (shr_m mrs') (loc_of_shr_record mrs')).
  assert (Hm1 : 0 <= m1 < 2 ^ (g1 + 1)).
  { assert (0 <= m1 <= shr_m mrs' + 1).
    { unfold m1, round_nearest_even.
      destruct (loc_of_shr_record mrs') as [|[]]; try lia.
      destruct (Z.even (shr_m mrs')); lia. }
    rewrite Z.pow_add_r, Z.pow_1_r by lia. lia. }
  pose proof (shr_fexp_below m1 e' (g1 + 1) loc_Exact (proj1 Hm1)
                ltac:(lia) (proj2 Hm1)) as [E2 B2].
  rewrite Exactness.fexp_eq in E2.
  assert (HD1 : Zdigits2 m1 <= g1 + 1)
    by (apply Zdigits2_le; lia).
  destruct (shr_fexp prec emax m1 e' loc_Exact) as [mrs'' e''].
  cbn [fst snd] in E2, B2.
  destruct (shr_m mrs'') as [|p|p] eqn:Ep; [exact I| |lia].
  assert (Hover : (e'' <=? emax - prec) = true).
  { apply Z.leb_le. change (emax - prec) with 971. lia. }
  rewrite Hover. cbn [Size.below].
  assert (Hpos : 1 <= g1 + 1 - (e'' - e')).
  { destruct (Z.le_gt_cases 1 (g1 + 1 - (e'' - e'))) as [|Hc]; trivial.
    replace (Z.max 0 (g1 + 1 - (e'' - e'))) with 0 in B2 by lia.
    cbn in B2. lia. }
  assert (Zpos (digits2_pos p) <= g1 + 1 - (e'' - e')).
  { apply Exactness.digits2_le.
    now replace (Z.max 0 (g1 + 1 - (e'' - e')))
      with (g1 + 1 - (e'' - e')) in B2 by lia. }
  lia.
Qed.

Lemma binary_round_below (sx : bool) (m : positive) (ex k : Z) :
  ex <= 971 -> Zpos (digits2_pos m) + ex <= k -> -1074 <= k <= 1023 ->
  Size.below (k + 1) (binary_round prec emax sx m ex).
Proof.
  intros Hex Hk HK. unfold binary_round, shl_align.
  destruct (fexp prec emax (Zpos (digits2_pos m) + ex) - ex)
    as [|d|d] eqn:E.
  - apply binary_round_aux_below; cbn [Zdigits2]; lia.
  - apply binary_round_aux_below; cbn [Zdigits2]; lia.
  - apply binary_round_aux_below; cbn [Zdigits2];
      rewrite ?Exactness.digits2_shift; lia.
Qed.

Lemma binary_normalize_below (m e k : Z) (szero : bool) :
  e <= 971 -> Zdigits2 m + e <= k -> -1074 <= k <= 1023 ->
  Size.below (k + 1) (binary_normalize prec emax m e szero).
Proof.
  intros He Hk HK. destruct m as [|p|p]; cbn [binary_normalize Zdigits2] in *.
  - exact I.
  - now apply binary_round_below.
  - now apply binary_round_below.
Qed.


Lemma Zdigits2_abs (m k : Z) : 0 <= k -> Z.abs m < 2 ^ k -> Zdigits2 m <= k.
Proof.
  destruct m as [|p|p]; cbn [Zdigits2 Z.abs]; intros Hk H; [lia| |];
    now apply Exactness.digits2_le.
Qed.

Lemma aligned_abs (s : bool) (m : positive) (e ez k : Z) :
  ez <= e -> Zpos (digits2_pos m) + e <= k ->
  Z.abs (cond_Zopp s (Zpos (fst (shl_align m e ez)))) < 2 ^ (k - ez).
Proof.
  intros Hez Hk. rewrite Exactness.shl_align_fst by exact Hez.
  pose proof (Exactness.digits2_lt_pow m) as Hm.
  assert (Hp : 0 < 2 ^ (e - ez)) by (apply Z.pow_pos_nonneg; lia).
  assert (Hd : 0 < Zpos (digits2_pos m)) by lia.
  assert (Hv : Zpos m * 2 ^ (e - ez) < 2 ^ (k - ez)).
  { eapply Z.lt_le_trans.
    - apply Z.mul_lt_mono_pos_r; [exact Hp | exact Hm].
    - rewrite <- Z.pow_add_r by lia. apply Z.pow_le_mono_r; lia. }
  destruct s; cbn [cond_Zopp]; lia.
Qed.

Lemma finite_exponent (x : float) (s : bool) (m : positive) (e : Z) :
  Prim2SF x = S754_finite s m e -> e <= 971.
Proof.
  intros E. pose proof (Prim2SF_valid x) as Hv. rewrite E in Hv.
  now apply Exactness.bounded_inv in Hv.
Qed.

Lemma aligned_sum_below (sx sy : bool) (mx my : positive) (ex ey k : Z)
    (op : Z -> Z -> Z) :
  (forall a b, Z.abs (op a b) <= Z.abs a + Z.abs b) ->
  ex <= 971 -> ey <= 971 ->
  Zpos (digits2_pos mx) + ex <= k -> Zpos (digits2_pos my) + ey <= k ->
  -1075 <= k <= 1022 ->
  Size.below (k + 2)
    (binary_normalize prec emax
       (op (cond_Zopp sx (Zpos (fst (shl_align mx ex (Z.min ex ey)))))
           (cond_Zopp sy (Zpos (fst (shl_align my ey (Z.min ex ey))))))
       (Z.min ex ey) false).
Proof.
  intros Hop Hex Hey Hx Hy Hk.
  set (ez := Z.min ex ey).
  pose proof (aligned_abs sx mx ex ez k ltac:(lia) Hx) as Ha.
  pose proof (aligned_abs sy my ey ez k ltac:(lia) Hy) as Hb.
  replace (k + 2) with (k + 1 + 1) by lia.
  apply binary_normalize_below; [lia| |lia].
  assert (Zdigits2
            (op (cond_Zopp sx (Zpos (fst (shl_align mx ex ez))))
                (cond_Zopp sy (Zpos (fst (shl_align my ey ez)))))
          <= k - ez + 1); [|lia].
  assert (Hd : 0 < Zpos (digits2_pos mx)) by lia.
  apply Zdigits2_abs; [lia|].
  rewrite Z.pow_add_r, Z.pow_1_r by lia.
  eapply Z.le_lt_trans; [apply Hop|]. lia.
Qed.

(** The difference of two numbers below [2^k] is below [2^(k+2)]. *)
Lemma sub_below (x y : float) (k : Z) :
  Size.below k (Prim2SF x) -> Size.below k (Prim2SF y) -> -1075 <= k <= 1022 ->
  Size.below (k + 2) (Prim2SF (x - y)).
Proof.
  intros Hx Hy Hk. rewrite FloatAxioms.sub_spec. unfold SF64sub.
  pose proof (finite_exponent x) as Fx. pose proof (finite_exponent y) as Fy.
  destruct (Prim2SF x) as [sx|sx| |sx mx ex];
    destruct (Prim2SF y) as [sy|sy| |sy my ey];
    cbn [Size.below] in Hx, Hy; try contradiction.
  - destruct sx, sy; exact I.
  - cbn [SFsub Size.below]. lia.
  - cbn [SFsub Size.below]. lia.
  - cbn [SFsub]. apply aligned_sum_below; try assumption.
    + intros a b. lia.
    + eapply Fx; reflexivity.
    + eapply Fy; reflexivity.
Qed.

(** The sum of two numbers below [2^k] is below [2^(k+2)]. *)
Lemma add_below (x y : float) (k : Z) :
  Size.below k (Prim2SF x) -> Size.below k (Prim2SF y) -> -1075 <= k <= 1022 ->
  Size.below (k + 2) (Prim2SF (x + y)).
Proof.
  intros Hx Hy Hk. rewrite FloatAxioms.add_spec. unfold SF64add.
  pose proof (finite_exponent x) as Fx. pose proof (finite_exponent y) as Fy.
  destruct (Prim2SF x) as [sx|sx| |sx mx ex];
    destruct (Prim2SF y) as [sy|sy| |sy my ey];
    cbn [Size.below] in Hx, Hy; try contradiction.
  - destruct sx, sy; exact I.
  - cbn [SFadd Size.below]. lia.
  - cbn [SFadd Size.below]. lia.
  - cbn [SFadd]. apply aligned_sum_below; try assumption.
    + intros a b. lia.
    + eapply Fx; reflexivity.
    + eapply Fy; reflexivity.
Qed.

(** The product with a finite number of non-positive exponent. *)
Lemma mul_below (x y : float) (sy : bool) (my : positive) (ey kx ky : Z) :
  Size.below kx (Prim2SF x) -> Prim2SF y = S754_finite sy my ey -> ey <= 0 ->
  Zpos (digits2_pos my) + ey <= ky -> -1074 <= kx + ky <= 1023 ->
  Size.below (kx + ky + 1) (Prim2SF (x * y)).
Proof.
  intros Hx Ey Hey Hy Hk. rewrite FloatAxioms.mul_spec, Ey. unfold SF64mul.
  pose proof (finite_exponent x) as Fx.
  destruct (Prim2SF x) as [sx|sx| |sx mx ex]; cbn [Size.below] in Hx;
    try contradiction; cbn [SFmul].
  - exact I.
  - specialize (Fx _ _ _ eq_refl).
    apply binary_round_aux_below; [lia|lia| |lia].
    cbn [Zdigits2].
    assert (Zpos (digits2_pos (mx * my))
            <= Zpos (digits2_pos mx) + Zpos (digits2_pos my)); [|lia].
    apply Exactness.digits2_le.
    pose proof (Exactness.digits2_lt_pow mx).
    pose proof (Exactness.digits2_lt_pow my).
    rewrite Z.pow_add_r, Pos2Z.inj_mul by lia.
    apply Z.mul_lt_mono_nonneg; lia.
Qed.

Lemma SFltb_finite_inv (m c : positive) (e ec : Z) :
  SFltb (S754_finite false m e) (S754_finite false c ec) = true ->
  e < ec \/ e = ec /\ Zpos m < Zpos c.
Proof.
  unfold SFltb. cbn [SFcompare].
  change (Pos.compare_cont Eq m c) with (Pos.compare m c).
  destruct (Z.compare_spec e ec) as [->|Hlt|Hgt];
    [|intros _; now left|discriminate].
  destruct (Pos.compare_spec m c) as [->|Hlt|Hgt]; try discriminate.
  intros _. right. split; [reflexivity|]. now apply Pos2Z.pos_lt_pos.
Qed.

(** A draw of [Math.random()], in [[0, 1)], is below [2^0]. *)
Lemma unit_draw_below (u : float) :
  (0 <=? u)%float = true -> (u <? 1)%float = true ->
  Size.below 0 (Prim2SF u).
Proof.
  rewrite FloatAxioms.leb_spec, FloatAxioms.ltb_spec.
  pose proof (Prim2SF_valid u) as Hv.
  change (Prim2SF 0) with (S754_zero false).
  change (Prim2SF 1) with (S754_finite false 4503599627370496 (-52)).
  destruct (Prim2SF u) as [s|s| |s m e]; try destruct s;
    try (intros H; discriminate H); try (intros _ H; discriminate H);
    cbn [Size.below]; trivial.
  intros _ H%SFltb_finite_inv.
  apply Exactness.bounded_inv in Hv. destruct Hv as [Hc He].
  destruct H as [Hlt|[-> Hm]]; [lia|].
  change (Zpos 4503599627370496) with (2 ^ 52) in Hm.
  apply Exactness.digits2_le in Hm. lia.
Qed.

(** For a draw in [[0, 1)] the factor [1 + volatility] is a zero or a
    finite number: it is neither NaN nor infinite. *)
Lemma factor_below (u : float) :
  (0 <=? u)%float = true -> (u <? 1)%float = true ->
  Size.below 3 (Prim2SF (1 + volatility u)).
Proof.
  intros H0 H1. unfold volatility.
  pose proof (unit_draw_below u H0 H1) as Hu.
  assert (Hh : Size.below 0 (Prim2SF 0.5)) by (vm_compute; discriminate).
  pose proof (sub_below u 0.5 0 Hu Hh ltac:(lia)) as Hd.
  assert (Hc : Prim2SF 0.02 = S754_finite false 5764607523034235 (-58))
    by reflexivity.
  pose proof (mul_below (u - 0.5) 0.02 _ _ _ 2 (-5) Hd Hc ltac:(lia)
                ltac:(vm_compute; discriminate) ltac:(lia)) as Hm.
  change (0 + 2) with 2 in Hd.
  change (2 + -5 + 1) with (-2) in Hm.
  apply (add_below 1 _ 1); [vm_compute; discriminate| |lia].
  eapply below_mono; [|exact Hm]. lia.
Qed.

End Magnitude.

(** ** A zero current price *)

Module ZeroPrice.

Lemma zero_cases (x : float) (s : bool) :
  Prim2SF x = S754_zero s -> x = 0 \/ x = (- 0).
Proof.
  intros E. destruct s; [right|left]; apply Prim2SF_inj; rewrite E;
    reflexivity.
Qed.

(** From a zero current price and a usable denominator every emitted
    value, before the floor, is a zero. *)
Lemma finalPrice_zero (p c u f : float) :
  (p =? 0) = true ->
  is_nan (1 + c / 100) = false -> (1 + c / 100 =? 0) = false ->
  Shape.fraction (Prim2SF f) ->
  Size.below 3 (Prim2SF (1 + volatility u)) ->
  exists s,
    Prim2SF (finalPrice (trendPrice (startPrice p c) p f) (volatility u))
    = S754_zero s.
Proof.
  intros Hp Hn Hz Hf Hu.
  unfold finalPrice, trendPrice, startPrice.
  rewrite FloatAxioms.mul_spec, FloatAxioms.add_spec, FloatAxioms.mul_spec,
    FloatAxioms.sub_spec, FloatAxioms.div_spec.
  apply FloatFacts.is_nan_false in Hn.
  rewrite FloatAxioms.eqb_spec in Hp, Hz. unfold SFeqb in Hp, Hz.
  change (Prim2SF 0) with (S754_zero false) in Hp, Hz.
  destruct (Prim2SF (1 + volatility u)) as [sv|sv| |sv mv ev];
    cbn [Size.below] in Hu; try contradiction;
    destruct (Prim2SF f) as [sf|sf| |sf mf ef]; try destruct sf;
    cbn [Shape.fraction] in Hf; try contradiction;
    destruct (Prim2SF p) as [sp|sp| |sp mp ep]; try destruct sp;
    cbn in Hp; try discriminate;
    destruct (Prim2SF (1 + c / 100)) as [sd|sd| |sd md ed];
    try destruct sd; cbn in Hz; try discriminate; try congruence;
    cbn; eexists; reflexivity.
Qed.

Lemma floor_of_zero (x : float) (s : bool) :
  Prim2SF x = S754_zero s -> JS.Math_max [x; floorPrice] = 0.0001.
Proof. intros [->| ->]%zero_cases; reflexivity. Qed.

End ZeroPrice.

(** X15.  A current price of zero (of either sign) gives a flat series at
    the floor: whenever the denominator [1 + change / 100] is a number
    other than zero and every draw of [Math.random()] lies in [[0, 1)],
    the start price is a zero and each of the 24 emitted prices is
    [0.0001], not [0]. *)
Theorem X15_zero_price_sits_on_floor :
  forall (toLocaleTimeString : Z -> string) (st : State)
         (a : TokenAnalytics.t) (Date_now : nat -> Z)
         (Math_random : nat -> float),
    analytics st = Some a ->
    (TokenDetails.price (TokenAnalytics.details a) =? 0) = true ->
    is_nan (1 + TokenDetails.priceChange24h (TokenAnalytics.details a) / 100)
      = false ->
    (1 + TokenDetails.priceChange24h (TokenAnalytics.details a) / 100 =? 0)
      = false ->
    (forall i, (i < points)%nat ->
       (0 <=? Math_random i) = true /\ (Math_random i <? 1) = true) ->
    (startPrice (TokenDetails.price (TokenAnalytics.details a))
       (TokenDetails.priceChange24h (TokenAnalytics.details a)) =? 0) = true /\
    map PricePoint.price
      (chartData toLocaleTimeString st Date_now Math_random)
    = repeat floorPrice points.
Proof.
  intros tl st a now rnd Ha Hp Hn Hz Hrnd.
  set (p := TokenDetails.price (TokenAnalytics.details a)) in *.
  set (c := TokenDetails.priceChange24h (TokenAnalytics.details a)) in *.
  split.
  - rewrite FloatAxioms.eqb_spec. unfold startPrice, SFeqb.
    rewrite FloatAxioms.div_spec.
    apply FloatFacts.is_nan_false in Hn.
    rewrite FloatAxioms.eqb_spec in Hp, Hz. unfold SFeqb in Hp, Hz.
    change (Prim2SF 0) with (S754_zero false) in *.
    destruct (Prim2SF p) as [sp|sp| |sp mp ep]; try destruct sp;
      cbn in Hp; try discriminate;
      destruct (Prim2SF (1 + c / 100)) as [sd|sd| |sd md ed];
      try destruct sd; cbn in Hz; try discriminate; try congruence;
      reflexivity.
  - rewrite (chartData_pointAt _ _ a) by assumption.
    rewrite map_map. cbn [PricePoint.price pointAt]. fold p c.
    replace (repeat floorPrice points)
      with (map (fun _ : nat => floorPrice) (seq 0 points))
      by (now rewrite map_const, length_seq).
    apply map_ext_in. intros i Hi%in_seq.
    destruct (Hrnd i ltac:(lia)) as [H0 H1].
    destruct (ZeroPrice.finalPrice_zero p c (rnd i) (progress i) Hp Hn Hz
                (FloatFacts.progress_fraction i ltac:(lia))
                (Magnitude.factor_below (rnd i) H0 H1)) as [s Hs].
    exact (ZeroPrice.floor_of_zero _ s Hs).
Qed.

Lemma X15_zero_price_sits_on_floor_witness :
  map PricePoint.price
    (chartData Sample.no_label (Sample.showing (Sample.priced 0 25))
       (Sample.frozen_clock 1700000000000) (fun _ => 0.75))
  = repeat 0.0001 24.
Proof.
  refine (proj2 (X15_zero_price_sits_on_floor Sample.no_label
                   (Sample.showing (Sample.priced 0 25)) (Sample.priced 0 25)
                   (Sample.frozen_clock 1700000000000) (fun _ => 0.75)
                   eq_refl eq_refl eq_refl eq_refl _)).
  intros i _. split; reflexivity.
Defined.
